(** * GMW job-log analyser: the data-processing pipeline

    A shallow embedding of the JavaScript sources that turn spreadsheet
    rows into execution records, per-job statistics and the overdue
    analysis ([Utils], [DataProcessor], [ExportManager], [CONFIG]).

    Conventions of the embedding:
    - a JavaScript number that holds a duration or a statistic is the
      real number ([R]) its double stands for; the arithmetic of the
      statistics rounds every result to a double ([Binary64]); a [Date]
      holding a valid time value is its number of milliseconds since the
      epoch ([Z]);
    - a JavaScript string is a [string];
    - an object used as a dictionary is a [gmap string _] of its own
      properties, read together with the members that an object literal
      inherits from [Object.prototype] ([Utils.groupBy]);
    - [throw] is the [Throw] constructor of [result]; [null] is [None];
    - the browser and the spreadsheet library are the [Platform] class;
    - the console has no counterpart. *)

From Stdlib Require Import Reals Lra ZArith String Ascii.
From stdpp Require Import gmap strings list fin_maps pretty.

Open Scope string_scope.
Open Scope list_scope.

(** ** JavaScript values found in a cell or a row field

    The kinds the pipeline distinguishes: a missing value, a text, and a
    [Date] object with a valid time value. *)

Inductive jsval : Type :=
  | Undefined
  | Text (s : string)
  | DateObj (t : Z).

(** [!value] is false exactly on the truthy values. *)
Definition truthy (value : jsval) : bool :=
  match value with
  | Undefined => false
  | Text s => negb (String.eqb s "")
  | DateObj _ => true
  end.

(** [a || b] on values. *)
Definition js_or (a b : jsval) : jsval := if truthy a then a else b.

(** A property read that finds nothing yields [undefined]. *)
Definition orUndefined (o : option jsval) : jsval := default Undefined o.

(** A template literal prints a missing piece as the word undefined. *)
Definition tpl (o : option string) : string := default "undefined" o.

(** ** String primitives used by the sources *)

Module JsString.

(** The white space class of [\s] and of [trim], on 8-bit code units. *)
Definition is_space (c : ascii) : bool :=
  let n := nat_of_ascii c in
  (Nat.leb 9 n && Nat.leb n 13) || Nat.eqb n 32.

Definition is_digit (c : ascii) : bool :=
  let n := nat_of_ascii c in Nat.leb 48 n && Nat.leb n 57.

Fixpoint trimStart (s : string) : string :=
  match s with
  | EmptyString => EmptyString
  | String c s' => if is_space c then trimStart s' else s
  end.

Fixpoint trimEnd (s : string) : string :=
  match s with
  | EmptyString => EmptyString
  | String c s' =>
      match trimEnd s' with
      | EmptyString => if is_space c then EmptyString else String c EmptyString
      | t => String c t
      end
  end.

(** [s.trim()] *)
Definition trim (s : string) : string := trimEnd (trimStart s).

(** [s.replace(/,/g, "")] *)
Fixpoint removeCommas (s : string) : string :=
  match s with
  | EmptyString => EmptyString
  | String c s' =>
      if Ascii.eqb c "," then removeCommas s' else String c (removeCommas s')
  end.

(** [s.replace(/\s+/g, " ")]: every maximal run of white space becomes
    one space. [inRun] tells that the previous unit was white space,
    whose run has already been replaced. *)
Fixpoint collapseFrom (inRun : bool) (s : string) : string :=
  match s with
  | EmptyString => EmptyString
  | String c s' =>
      if is_space c
      then (if inRun then collapseFrom true s'
            else String " " (collapseFrom true s'))
      else String c (collapseFrom false s')
  end.

Definition collapseSpaces (s : string) : string := collapseFrom false s.

(** [s.split(sep)] for a separator of one code unit: the pieces between
    the separators, at least one piece. *)
Fixpoint split (sep : ascii) (s : string) : list string :=
  match s with
  | EmptyString => [EmptyString]
  | String c s' =>
      if Ascii.eqb c sep then EmptyString :: split sep s'
      else match split sep s' with
           | piece :: pieces => String c piece :: pieces
           | [] => [String c EmptyString]
           end
  end.

(** [hay.includes(needle)] *)
Fixpoint includes (hay needle : string) : bool :=
  String.prefix needle hay
  || match hay with
     | EmptyString => false
     | String _ hay' => includes hay' needle
     end.

(** The pattern [(\d{2})\/(\d{2})\/(\d{4})] anchored at the start of
    [s]: the three groups and what follows the match. *)
Definition matchSlashDate (s : string)
  : option (string * string * string * string) :=
  match s with
  | String a (String b (String "/" (String c (String d (String "/"
      (String e (String f (String g (String h rest))))))))) =>
      if forallb is_digit [a; b; c; d; e; f; g; h]
      then Some (String a (String b EmptyString),
                 String c (String d EmptyString),
                 String e (String f (String g (String h EmptyString))),
                 rest)
      else None
  | _ => None
  end.

(** [s.replace(/(\d{2})\/(\d{2})\/(\d{4})/, "$3-$1-$2")]: the leftmost
    match only, since the pattern has no [g] flag. *)
Fixpoint replaceSlashDate (s : string) : string :=
  match matchSlashDate s with
  | Some (g1, g2, g3, rest) => g3 +:+ "-" +:+ g1 +:+ "-" +:+ g2 +:+ rest
  | None =>
      match s with
      | EmptyString => EmptyString
      | String c s' => String c (replaceSlashDate s')
      end
  end.

End JsString.

(** ** Configuration ([CONFIG]) *)

Module CONFIG.

Module EXCEL.
Definition HEADER_ROW : Z := 9.
Definition DATA_START_ROW : Z := 10.

(** The keys shared by [COLUMNS] and [HEADERS]. *)
Inductive ColumnKey : Type :=
  JOB_NAME | AGENT_NAME | START_DATETIME | END_DATETIME.

Definition COLUMNS (column : ColumnKey) : string :=
  match column with
  | JOB_NAME => "A"
  | AGENT_NAME => "E"
  | START_DATETIME => "O"
  | END_DATETIME => "Q"
  end.

Definition HEADERS (column : ColumnKey) : string :=
  match column with
  | JOB_NAME => "Job Name"
  | AGENT_NAME => "Agent Name"
  | START_DATETIME => "Start Date, Time"
  | END_DATETIME => "End Date, Time"
  end.

(** [Object.entries(CONFIG.EXCEL.COLUMNS)], in the order of the
    object literal. *)
Definition COLUMNS_entries : list (ColumnKey * string) :=
  (fun column => (column, COLUMNS column))
    <$> [JOB_NAME; AGENT_NAME; START_DATETIME; END_DATETIME].
End EXCEL.

Module ANALYSIS.
Definition OVERDUE_THRESHOLD : R := 1.
Definition MIN_EXECUTIONS : nat := 3.
End ANALYSIS.

End CONFIG.

(** ** Errors and results *)

(** [JobAnalyzerError] and its subclasses differ by the [type] tag only;
    a native [TypeError] can be the wrapped cause. The [timestamp] field
    is left out: it records the wall clock. *)
#[warnings="-register-all"]
Inductive jsError : Type :=
  | TypeError (message : string)
  | JobAnalyzerError (type : string) (message : string)
                     (originalError : option jsError).

Definition FileError (message : string) (originalError : option jsError) :=
  JobAnalyzerError "FileError" message originalError.
Definition DataError (message : string) (originalError : option jsError) :=
  JobAnalyzerError "DataError" message originalError.
Definition ValidationError (message : string) (originalError : option jsError) :=
  JobAnalyzerError "ValidationError" message originalError.
Definition ProcessingError (message : string) (originalError : option jsError) :=
  JobAnalyzerError "ProcessingError" message originalError.

(** The [type] discriminant of an error. *)
Definition errorType (e : jsError) : string :=
  match e with
  | TypeError _ => "TypeError"
  | JobAnalyzerError type _ _ => type
  end.

(** The [message] of an error. *)
Definition errorMessage (e : jsError) : string :=
  match e with
  | TypeError message => message
  | JobAnalyzerError _ message _ => message
  end.


Inductive result (A : Type) : Type :=
  | Ok (a : A)
  | Throw (e : jsError).
Arguments Ok {A} a.
Arguments Throw {A} e.

#[global] Instance result_ret : MRet result := fun A a => Ok a.
#[global] Instance result_bind : MBind result := fun A B k r =>
  match r with
  | Ok a => k a
  | Throw e => Throw e
  end.

(** ** The spreadsheet library and the browser *)

Module XLSX.
(** A cell with its raw value [v]. *)
Record Cell : Type := { v : jsval }.
(** A worksheet: the cells by address, such as A9. *)
Abbreviation Sheet := (gmap string Cell).
(** A row as [sheet_to_json] returns it: the values by header name. *)
Abbreviation Row := (gmap string jsval).
(** The options object handed to [sheet_to_json]. *)
Record Opts : Type := { range : Z; header : list string; raw : bool }.
End XLSX.

(** What the sources call and do not define. [Date_parse s] is the time
    value of [new Date(s)], [None] when that date is invalid. *)
Class Platform : Type := {
  Date_parse : string -> option Z;
  Date_toString : Z -> string;
  XLSX_sheet_to_json : XLSX.Sheet -> XLSX.Opts -> list XLSX.Row
}.

(** [value.toString()] and [String(value)] on a value that is not
    [undefined]; [String(undefined)] is the word itself. *)
Definition toString `{Platform} (value : jsval) : string :=
  match value with
  | Undefined => "undefined"
  | Text s => s
  | DateObj t => Date_toString t
  end.

(** A file picked by the user: its name and the first sheet of the
    workbook read from it, [None] when the file reader reports an error. *)
Record File : Type := { name : string; firstSheet : option XLSX.Sheet }.

(** ** Numbers

    A JavaScript number is an IEEE 754 double. The model keeps the real
    number a finite double stands for, and makes each arithmetic
    operation round its exact result to the nearest double, ties going
    to the even significand. Infinities and NaN have no counterpart:
    the statistics reach them only from magnitudes above 1.7e308. *)

(** The strict comparison of two numbers is decidable, which lets
    [filter] and [if] branch on it as the sources do. *)
#[global] Instance Rlt_decision : RelDecision Rlt := Rlt_dec.

Module Binary64.

(** The integer nearest to [t], the even one of the two when [t] lies
    halfway. *)
Definition roundHalfEven (t : R) : Z :=
  let n := Int_part t in
  let d := (t - IZR n)%R in
  if decide (d < 1 / 2)%R then n
  else if decide (1 / 2 < d)%R then (n + 1)%Z
  else if Z.even n then n else (n + 1)%Z.

(** The exponent of the binade of [x]: the integer part of its binary
    logarithm, and -1022 for the subnormal numbers. *)
Definition exponent (x : R) : Z :=
  Z.max (Int_part (ln (Rabs x) / ln 2)) (-1022).

(** The gap between the doubles around [x]: a significand has 53 bits. *)
Definition ulp (x : R) : R := powerRZ 2 (exponent x - 52).

(** The double nearest to [x]. *)
Definition round (x : R) : R := (IZR (roundHalfEven (x / ulp x)) * ulp x)%R.

(** The operators [+], [-], [*], [/] and [Math.sqrt] on numbers. *)
Definition add (a b : R) : R := round (a + b).
Definition sub (a b : R) : R := round (a - b).
Definition mul (a b : R) : R := round (a * b).
Definition div (a b : R) : R := round (a / b).
Definition sqrt (a : R) : R := round (R_sqrt.sqrt a).

End Binary64.

(** ** [Utils] *)

Module Utils.

Record FormattedDuration : Type := {
  formatted : string;
  hours : Z;
  minutes : Z;
  totalMinutes : R
}.

(** [Math.floor], [Math.round] and the remainder operator [%], whose
    quotient is truncated towards zero. *)
Definition Math_floor (x : R) : Z := Int_part x.
Definition Math_round (x : R) : Z := Int_part (x + 1 / 2).
Definition js_rem (x y : R) : R :=
  let q := (x / y)%R in
  let truncated := if decide (q < 0)%R then (- Int_part (- q))%Z else Int_part q in
  (x - y * IZR truncated)%R.

Definition formatDuration (minutes : R) : FormattedDuration :=
  let hours := Math_floor (minutes / 60) in
  let mins := Math_round (js_rem minutes 60) in
  {| formatted := pretty hours +:+ "h " +:+ pretty mins +:+ "m";
     hours := hours;
     minutes := mins;
     totalMinutes := minutes |}.

Record BasicStats : Type := {
  min : R;
  max : R;
  mean : R;
  std : R;
  count : nat
}.

(** [values.reduce((a, b) => a + b, 0)] *)
Definition reduce_sum (values : list R) : R := foldl Binary64.add 0%R values.

(** [Math.pow(x, 2)]: the square, rounded. *)
Definition Math_pow2 (x : R) : R := Binary64.round (x ^ 2).

(** [calculateStats(values)]; [None] is the [null] returned for an
    empty array. [Math.min(...values)] and [Math.max(...values)] fold
    over the arguments, of which there is at least one here, and pick
    one of them without rounding. *)
Definition calculateStats (values : list R) : option BasicStats :=
  match values with
  | [] => None
  | first :: others =>
      let sum := reduce_sum values in
      let mean := Binary64.div sum (INR (length values)) in
      let squaredDiffs :=
        (fun value => Math_pow2 (Binary64.sub value mean)) <$> values in
      let variance :=
        Binary64.div (reduce_sum squaredDiffs) (INR (length values)) in
      Some {| min := foldl Rmin first others;
              max := foldl Rmax first others;
              mean := mean;
              std := Binary64.sqrt variance;
              count := length values |}
  end.

(** The names of the members that every object literal inherits from
    [Object.prototype]. *)
Definition Object_prototype : list string :=
  [ "constructor"; "__defineGetter__"; "__defineSetter__"; "hasOwnProperty";
    "__lookupGetter__"; "__lookupSetter__"; "isPrototypeOf";
    "propertyIsEnumerable"; "toString"; "valueOf"; "__proto__";
    "toLocaleString" ].

(** The function [groupBy] reduces with. [groups[item[key]]] finds the
    group an earlier item made under this key; failing that, the member
    [groups] inherits under this name, which is truthy and has no
    [push], so that [group.push(item)] throws; failing that, nothing,
    and the item starts a fresh group. *)
Definition groupBy_reducer {A : Type} (key : A -> string)
    (groups : gmap string (list A)) (item : A) : result (gmap string (list A)) :=
  match groups !! key item with
  | Some group => Ok (<[key item := group ++ [item]]> groups)
  | None =>
      if decide (key item ∈ Object_prototype)
      then Throw (TypeError "group.push is not a function")
      else Ok (<[key item := [item]]> groups)
  end.

(** [groupBy(array, key)]: the first exception leaves the [reduce]. *)
Definition groupBy {A : Type} (key : A -> string) (array : list A)
  : result (gmap string (list A)) :=
  foldl (fun groups item => groups ← groups; groupBy_reducer key groups item)
        (Ok ∅) array.

End Utils.

(** ** Rows and records *)

(** A raw row after [filterRelevantColumns]. *)
Module RawRow.
Record t : Type := {
  jobName : jsval;
  agentName : jsval;
  startDateTime : jsval;
  endDateTime : jsval
}.
End RawRow.

(** A processed row; both dates are valid, so each is its time value. *)
Module ExecutionRecord.
Record t : Type := {
  jobName : string;
  agentName : string;
  startDateTime : Z;
  endDateTime : Z;
  duration : R
}.
End ExecutionRecord.

(** ** [LoadingManager] *)

Module LoadingManager.

(** The overlay element of the page: whether its class list has
    [hidden], and the text of its message element, [None] as long as
    the overlay has no such element. *)
Record Overlay : Type := { hidden : bool; message : option string }.

(** The fields of a loading manager. [overlay] is [None] when the page
    has no overlay element. [loadingStates] is the [Map] from ids to
    messages, in insertion order. *)
Record State : Type := {
  overlay : option Overlay;
  loadingStates : list (string * string)
}.

(** [new LoadingManager()], on a page with the given overlay. *)
Definition new (overlay : option Overlay) : State :=
  {| overlay := overlay; loadingStates := [] |}.

(** [map.set(id, message)]: the value of a present key is replaced where
    it stands, a new key goes last. *)
Fixpoint Map_set (id message : string) (states : list (string * string))
  : list (string * string) :=
  match states with
  | [] => [(id, message)]
  | (k, m) :: states' =>
      if decide (k = id) then (k, message) :: states'
      else (k, m) :: Map_set id message states'
  end.

(** [map.delete(id)] *)
Fixpoint Map_delete (id : string) (states : list (string * string))
  : list (string * string) :=
  match states with
  | [] => []
  | (k, m) :: states' =>
      if decide (k = id) then states' else (k, m) :: Map_delete id states'
  end.

(** [show(message)]: the message element, created if need be, gets the
    text, and the overlay loses [hidden]. *)
Definition show (message : string) (this : State) : State :=
  match overlay this with
  | Some _ =>
      {| overlay := Some {| hidden := false; message := Some message |};
         loadingStates := loadingStates this |}
  | None => this
  end.

(** [hide()] *)
Definition hide (this : State) : State :=
  match overlay this with
  | Some o =>
      {| overlay := Some {| hidden := true; message := message o |};
         loadingStates := loadingStates this |}
  | None => this
  end.

(** [startLoading(id, message)] *)
Definition startLoading (id message : string) (this : State) : State :=
  let this := {| overlay := overlay this;
                 loadingStates := Map_set id message (loadingStates this) |} in
  if Nat.eqb (length (loadingStates this)) 1 then show message this else this.

(** [finishLoading(id)]. The last message is popped off the values of
    the map; on an empty array [pop] yields [undefined], for which
    [show] takes its default text. *)
Definition finishLoading (id : string) (this : State) : State :=
  let this := {| overlay := overlay this;
                 loadingStates := Map_delete id (loadingStates this) |} in
  if Nat.eqb (length (loadingStates this)) 0 then hide this
  else
    let lastMessage := last ((loadingStates this).*2) in
    show (default "Carregando..." lastMessage) this.

(** A call on the manager, and a sequence of calls. *)
Inductive Call : Type :=
  | CallStart (id message : string)
  | CallFinish (id : string).

Definition call (this : State) (c : Call) : State :=
  match c with
  | CallStart id message => startLoading id message this
  | CallFinish id => finishLoading id this
  end.

Definition calls (cs : list Call) (this : State) : State := foldl call this cs.

End LoadingManager.

(** ** [DataProcessor] *)

Module DataProcessor.

Record JobStatistics : Type := {
  basicStats : Utils.BasicStats;
  totalExecutions : nat;
  uniqueAgents : nat;
  averageDuration : Utils.FormattedDuration;
  minDuration : Utils.FormattedDuration;
  maxDuration : Utils.FormattedDuration
}.

(** The fields of a processor object. *)
Record State : Type := {
  rawData : list RawRow.t;
  processedData : list ExecutionRecord.t;
  statistics : gmap string JobStatistics
}.

(** [reset()] *)
Definition reset (this : State) : State :=
  {| rawData := []; processedData := []; statistics := ∅ |}.

(** [new DataProcessor()]: the constructor only resets. *)
Definition new : State :=
  {| rawData := []; processedData := []; statistics := ∅ |}.

Section WithPlatform.
Context `{Platform}.

(** [validateHeaders(sheet)]: the loop over the entries of
    [CONFIG.EXCEL.COLUMNS] stops at the first cell that is missing,
    falsy, or whose text does not include the required header. *)
Fixpoint validateHeaders_from
    (entries : list (CONFIG.EXCEL.ColumnKey * string))
    (sheet : XLSX.Sheet) : result unit :=
  match entries with
  | [] => Ok tt
  | (column, expectedHeader) :: entries' =>
      let headerRow := CONFIG.EXCEL.HEADER_ROW in
      let requiredHeaders := CONFIG.EXCEL.HEADERS in
      let cellAddress := expectedHeader +:+ pretty headerRow in
      let cellValue := orUndefined (XLSX.v <$> sheet !! cellAddress) in
      if negb (truthy cellValue)
         || negb (JsString.includes (toString cellValue)
                                    (requiredHeaders column))
      then Throw (ValidationError
                    ("Cabeçalho não encontrado: " +:+ requiredHeaders column
                     +:+ " em " +:+ cellAddress) None)
      else validateHeaders_from entries' sheet
  end.

Definition validateHeaders (sheet : XLSX.Sheet) : result unit :=
  validateHeaders_from CONFIG.EXCEL.COLUMNS_entries sheet.

(** [createHeaderArray()]: one name per column letter from A to Z. *)
Definition createHeaderArray : list string :=
  foldl (fun headerArray code =>
           let currentColumn := String (ascii_of_nat code) EmptyString in
           headerArray ++
           [ if String.eqb currentColumn
                  (CONFIG.EXCEL.COLUMNS CONFIG.EXCEL.JOB_NAME)
             then "jobName"
             else if String.eqb currentColumn
                  (CONFIG.EXCEL.COLUMNS CONFIG.EXCEL.AGENT_NAME)
             then "agentName"
             else if String.eqb currentColumn
                  (CONFIG.EXCEL.COLUMNS CONFIG.EXCEL.START_DATETIME)
             then "startDateTime"
             else if String.eqb currentColumn
                  (CONFIG.EXCEL.COLUMNS CONFIG.EXCEL.END_DATETIME)
             then "endDateTime"
             else "blank" +:+ pretty (length headerArray) ])
        [] (seq (nat_of_ascii "A") 26).

(** [filterRelevantColumns(data)] *)
Definition filterRelevantColumns (data : list XLSX.Row) : list RawRow.t :=
  (fun row : XLSX.Row =>
     {| RawRow.jobName := orUndefined (row !! "jobName");
        RawRow.agentName := orUndefined (row !! "agentName");
        RawRow.startDateTime := orUndefined (row !! "startDateTime");
        RawRow.endDateTime := orUndefined (row !! "endDateTime") |})
  <$> data.

(** [readFile(file)]: the promise resolves with the rows ([Ok]) or is
    rejected with a [FileError] ([Throw]). The headers are validated
    before the sheet is converted to rows. *)
Definition readFile (file : File) : result (list RawRow.t) :=
  match firstSheet file with
  | None => Throw (FileError ("Erro na leitura do arquivo " +:+ name file) None)
  | Some firstSheet =>
      let attempt :=
        _ ← validateHeaders firstSheet;
        let jsonOpts :=
          {| XLSX.range := CONFIG.EXCEL.DATA_START_ROW;
             XLSX.header := createHeaderArray;
             XLSX.raw := false |} in
        let jsonData := XLSX_sheet_to_json firstSheet jsonOpts in
        mret (filterRelevantColumns jsonData) in
      match attempt with
      | Ok jsonData => Ok jsonData
      | Throw error =>
          Throw (FileError ("Erro ao ler arquivo " +:+ name file) (Some error))
      end
  end.

(** The loop of [parseDateTime] over its formats: the first one that
    yields a valid date wins. *)
Fixpoint tryFormats (formats : list (unit -> option Z)) : option Z :=
  match formats with
  | [] => None
  | format :: formats' =>
      match format tt with
      | Some date => Some date
      | None => tryFormats formats'
      end
  end.

(** [parseDateTime(value)] *)
Definition parseDateTime (value : jsval) : option Z :=
  if negb (truthy value) then None
  else match value with
  | DateObj t => Some t
  | _ =>
      let strValue :=
        JsString.collapseSpaces
          (JsString.removeCommas (JsString.trim (toString value))) in
      let formats : list (unit -> option Z) :=
        [ (* ISO *)
          (fun _ => Date_parse strValue);
          (* dd/mm/yyyy hh:mm:ss *)
          (fun _ =>
             let parts := JsString.split " " strValue in
             let datePart := parts !! 0%nat in
             let timePart := parts !! 1%nat in
             match datePart with
             | None | Some EmptyString => None
             | Some datePart =>
                 let dmy := JsString.split "/" datePart in
                 let day := dmy !! 0%nat in
                 let month := dmy !! 1%nat in
                 let year := dmy !! 2%nat in
                 match timePart with
                 | None | Some EmptyString =>
                     Date_parse (tpl year +:+ "-" +:+ tpl month +:+ "-"
                                 +:+ tpl day)
                 | Some timePart =>
                     Date_parse (tpl year +:+ "-" +:+ tpl month +:+ "-"
                                 +:+ tpl day +:+ " " +:+ timePart)
                 end
             end);
          (* mm/dd/yyyy hh:mm:ss *)
          (fun _ => Date_parse (JsString.replaceSlashDate strValue)) ] in
      tryFormats formats
  end.

(** [processRow(row)]; [None] is the [null] of a dropped row. The
    duration is the difference of the two time values in minutes; it
    cannot be NaN here, both dates being valid. *)
Definition processRow (row : RawRow.t) : option ExecutionRecord.t :=
  match parseDateTime (RawRow.startDateTime row),
        parseDateTime (RawRow.endDateTime row) with
  | Some startDate, Some endDate =>
      let duration := (IZR (endDate - startDate) / (1000 * 60))%R in
      if decide (duration < 0)%R then None
      else Some
        {| ExecutionRecord.jobName :=
             JsString.trim (toString (js_or (RawRow.jobName row) (Text "")));
           ExecutionRecord.agentName :=
             JsString.trim (toString (js_or (RawRow.agentName row) (Text "")));
           ExecutionRecord.startDateTime := startDate;
           ExecutionRecord.endDateTime := endDate;
           ExecutionRecord.duration := duration |}
  | _, _ => None
  end.

(** [processFileData(data)] *)
Definition processFileData (data : list RawRow.t)
  : result (list ExecutionRecord.t) :=
  match data with
  | [] => Throw (DataError "Arquivo vazio ou sem dados válidos" None)
  | _ => Ok (omap processRow data)
  end.

End WithPlatform.

(** The body of the [reduce] in [calculateStatistics] for one group.
    Reading [basicStats.mean] on a [null] would be a [TypeError]. *)
Definition statisticsOfGroup (jobs : list ExecutionRecord.t)
  : result JobStatistics :=
  let durations := ExecutionRecord.duration <$> jobs in
  match Utils.calculateStats durations with
  | None => Throw (TypeError "Cannot read properties of null")
  | Some basicStats =>
      Ok {| basicStats := basicStats;
            totalExecutions := length jobs;
            uniqueAgents :=
              size (list_to_set (ExecutionRecord.agentName <$> jobs) : gset string);
            averageDuration := Utils.formatDuration (Utils.mean basicStats);
            minDuration := Utils.formatDuration (Utils.min basicStats);
            maxDuration := Utils.formatDuration (Utils.max basicStats) |}
  end.

(** [calculateStatistics()], as a function of [this.processedData]:
    the value assigned to [this.statistics]. *)
Definition calculateStatistics (processedData : list ExecutionRecord.t)
  : result (gmap string JobStatistics) :=
  jobGroups ← Utils.groupBy ExecutionRecord.jobName processedData;
  map_fold (fun jobName jobs (stats : result (gmap string JobStatistics)) =>
              stats ← stats;
              entry ← statisticsOfGroup jobs;
              mret (<[jobName := entry]> stats))
           (Ok ∅) jobGroups.

Section WithPlatform.
Context `{Platform}.

(** The [for ... of] loop of [processFiles]: one file is read and
    processed before the next; an error leaves the loop with the
    rows accumulated so far still in the processor. *)
Fixpoint processFiles_loop (files : list File) (this : State)
  : result unit * State :=
  match files with
  | [] => (Ok tt, this)
  | file :: files' =>
      match fileData ← readFile file; processFileData fileData with
      | Throw error => (Throw error, this)
      | Ok processedFileData =>
          processFiles_loop files'
            {| rawData := rawData this;
               processedData := processedData this ++ processedFileData;
               statistics := statistics this |}
      end
  end.

(** [processFiles(files)]: the value the promise resolves with, or
    the [ProcessingError] it is rejected with, and the processor
    afterwards. *)
Definition processFiles (files : list File) (this : State)
  : result (list ExecutionRecord.t) * State :=
  let wrap error :=
    Throw (ProcessingError "Erro no processamento de arquivos" (Some error)) in
  match processFiles_loop files (reset this) with
  | (Throw error, this) => (wrap error, this)
  | (Ok _, this) =>
      match calculateStatistics (processedData this) with
      | Throw error => (wrap error, this)
      | Ok stats =>
          let this := {| rawData := rawData this;
                         processedData := processedData this;
                         statistics := stats |} in
          (Ok (processedData this), this)
      end
  end.

End WithPlatform.

Section WithLoading.
Context `{Platform}.

(** [processFiles(files)] together with the loading manager of the page.
    [loadingId] is the id [Utils.generateUniqueId] made up. The loading
    state is started after the reset and finished after the statistics;
    when the body throws, control goes to the [catch], which finishes
    nothing. *)
Definition processFilesWithLoading (loadingId : string) (files : list File)
    (this : State) (manager : LoadingManager.State)
  : result (list ExecutionRecord.t) * State * LoadingManager.State :=
  let manager :=
    LoadingManager.startLoading loadingId "Processando arquivos..." manager in
  match processFiles files this with
  | (Ok processedData, this) =>
      (Ok processedData, this, LoadingManager.finishLoading loadingId manager)
  | (Throw error, this) => (Throw error, this, manager)
  end.

End WithLoading.

End DataProcessor.

(** ** [ExportManager] *)

Module ExportManager.

Record OverdueEntry : Type := {
  overdueCount : nat;
  totalExecutions : nat;
  overduePercentage : R;
  averageDuration : Utils.FormattedDuration;
  standardDeviation : Utils.FormattedDuration
}.

(** The threshold a duration must exceed to be overdue: the value of
    the constant [overdueThreshold] of [calculateOverdueAnalysis]. *)
Definition thresholdOf (stats : Utils.BasicStats) : R :=
  Binary64.add (Utils.mean stats)
               (Binary64.mul (Utils.std stats) CONFIG.ANALYSIS.OVERDUE_THRESHOLD).

(** The body of the [forEach] in [calculateOverdueAnalysis] for one
    group. Reading [stats.mean] on a [null] would be a [TypeError]. *)
Definition overdueOfGroup (jobs : list ExecutionRecord.t)
  : result OverdueEntry :=
  let durations := ExecutionRecord.duration <$> jobs in
  match Utils.calculateStats durations with
  | None => Throw (TypeError "Cannot read properties of null")
  | Some stats =>
      let overdueThreshold := thresholdOf stats in
      let overdueCount :=
        length (filter (fun j => (overdueThreshold < ExecutionRecord.duration j)%R)
                       jobs) in
      Ok {| overdueCount := overdueCount;
            totalExecutions := length jobs;
            overduePercentage :=
              Binary64.mul (Binary64.div (INR overdueCount) (INR (length jobs)))
                           100;
            averageDuration := Utils.formatDuration (Utils.mean stats);
            standardDeviation := Utils.formatDuration (Utils.std stats) |}
  end.

(** [calculateOverdueAnalysis()], as a function of [this.data]. *)
Definition calculateOverdueAnalysis (data : list ExecutionRecord.t)
  : result (gmap string OverdueEntry) :=
  jobGroups ← Utils.groupBy ExecutionRecord.jobName data;
  map_fold (fun job jobs (analysis : result (gmap string OverdueEntry)) =>
              analysis ← analysis;
              entry ← overdueOfGroup jobs;
              mret (<[job := entry]> analysis))
           (Ok ∅) jobGroups.

Record StatisticsEntry : Type := {
  mean : R;
  std : R;
  min : R;
  max : R;
  count : nat;
  agents : nat
}.

(** The body of the [reduce] in [calculateStatistics] for one group. An
    empty group, which [groupBy] never makes, would give values the
    reals lack (NaN and the infinities): [None] stands for them. *)
Definition statisticsOfGroup (jobs : list ExecutionRecord.t)
  : option StatisticsEntry :=
  let durations := ExecutionRecord.duration <$> jobs in
  match durations with
  | [] => None
  | first :: others =>
      let mean :=
        Binary64.div (foldl Binary64.add 0%R durations)
                     (INR (length durations)) in
      let variance :=
        Binary64.div
          (foldl (fun a b =>
                    Binary64.add a (Utils.Math_pow2 (Binary64.sub b mean)))
                 0%R durations)
          (INR (length durations)) in
      Some {| mean := mean;
              std := Binary64.sqrt variance;
              min := foldl Rmin first others;
              max := foldl Rmax first others;
              count := length jobs;
              agents :=
                size (list_to_set (ExecutionRecord.agentName <$> jobs)
                      : gset string) |}
  end.

(** [calculateStatistics()], as a function of [this.data]: the
    statistics the export sheets and the report are made of. [Throw] is
    the exception of [groupBy]; [Ok None] stands for statistics with an
    entry that [statisticsOfGroup] cannot express. *)
Definition calculateStatistics (data : list ExecutionRecord.t)
  : result (option (gmap string StatisticsEntry)) :=
  jobGroups ← Utils.groupBy ExecutionRecord.jobName data;
  Ok (map_fold (fun job jobs (stats : option (gmap string StatisticsEntry)) =>
                  stats ← stats;
                  entry ← statisticsOfGroup jobs;
                  mret (<[job := entry]> stats))
               (Some ∅) jobGroups).

End ExportManager.

(** ** A platform to run the model on

    A browser whose local time zone is UTC. Its [Date] constructor reads
    the ISO shapes (year-month-day, then optionally T or a space and a
    clock) and the month/day/year shape; every other text is an invalid
    date. Its [sheet_to_json] returns one object per non-empty row, from
    the row with index [range] (counted from zero) to the last row. *)

Module ReferencePlatform.

Definition digitValue (c : ascii) : option Z :=
  if JsString.is_digit c then Some (Z.of_nat (nat_of_ascii c) - 48)%Z else None.

Fixpoint digitsFrom (acc : Z) (s : string) : option Z :=
  match s with
  | EmptyString => Some acc
  | String c s' => d ← digitValue c; digitsFrom (10 * acc + d)%Z s'
  end.

(** A run of [lo] to [hi] digits, as a number. *)
Definition number (lo hi : nat) (s : string) : option Z :=
  let n := String.length s in
  if Nat.leb lo n && Nat.leb n hi then digitsFrom 0 s else None.

(** Days between 1970-01-01 and the given day of the Gregorian
    calendar. *)
Definition daysFromCivil (y m d : Z) : Z :=
  let y := (if m <=? 2 then y - 1 else y)%Z in
  let era := (y `div` 400)%Z in
  let yoe := (y - era * 400)%Z in
  let mp := ((m + 9) `mod` 12)%Z in
  let doy := ((153 * mp + 2) `div` 5 + d - 1)%Z in
  let doe := (yoe * 365 + yoe `div` 4 - yoe `div` 100 + doy)%Z in
  (era * 146097 + doe - 719468)%Z.

(** The day of the calendar that lies [z] days after 1970-01-01. *)
Definition civilFromDays (z : Z) : Z * Z * Z :=
  let z := (z + 719468)%Z in
  let era := (z `div` 146097)%Z in
  let doe := (z - era * 146097)%Z in
  let yoe := ((doe - doe `div` 1460 + doe `div` 36524 - doe `div` 146096)
              `div` 365)%Z in
  let doy := (doe - (365 * yoe + yoe `div` 4 - yoe `div` 100))%Z in
  let mp := ((5 * doy + 2) `div` 153)%Z in
  let d := (doy - (153 * mp + 2) `div` 5 + 1)%Z in
  let m := (if mp <? 10 then mp + 3 else mp - 9)%Z in
  let y := (yoe + era * 400 + (if m <=? 2 then 1 else 0))%Z in
  (y, m, d).

Definition daysInMonth (y m : Z) : Z :=
  (daysFromCivil (if m =? 12 then y + 1 else y) (if m =? 12 then 1 else m + 1) 1
   - daysFromCivil y m 1)%Z.

Definition timeValue (y m d h mi sec : Z) : option Z :=
  if ((1 <=? m) && (m <=? 12) && (1 <=? d) && (d <=? daysInMonth y m)
      && (h <=? 23) && (mi <=? 59) && (sec <=? 59))%Z
  then Some ((((daysFromCivil y m d * 24 + h) * 60 + mi) * 60 + sec) * 1000)%Z
  else None.

(** The text before the first T or space, and the text after it. *)
Fixpoint splitDateTime (s : string) : string * option string :=
  match s with
  | EmptyString => (EmptyString, None)
  | String c s' =>
      if Ascii.eqb c "T" || Ascii.eqb c " " then (EmptyString, Some s')
      else let '(date, clock) := splitDateTime s' in (String c date, clock)
  end.

Definition parseCalendar (date : string) : option (Z * Z * Z) :=
  match JsString.split "-" date with
  | [y; m; d] =>
      y ← number 4 4 y; m ← number 2 2 m; d ← number 2 2 d; Some (y, m, d)
  | _ =>
      match JsString.split "/" date with
      | [m; d; y] =>
          m ← number 1 2 m; d ← number 1 2 d; y ← number 4 4 y; Some (y, m, d)
      | _ => None
      end
  end.

Definition parseClock (clock : option string) : option (Z * Z * Z) :=
  match clock with
  | None => Some (0, 0, 0)%Z
  | Some clock =>
      match JsString.split ":" clock with
      | [h; mi] => h ← number 1 2 h; mi ← number 2 2 mi; Some (h, mi, 0%Z)
      | [h; mi; sec] =>
          h ← number 1 2 h; mi ← number 2 2 mi; sec ← number 2 2 sec;
          Some (h, mi, sec)
      | _ => None
      end
  end.

Definition parseDate (s : string) : option Z :=
  let '(date, clock) := splitDateTime s in
  '(y, m, d) ← parseCalendar date;
  '(h, mi, sec) ← parseClock clock;
  timeValue y m d h mi sec.

Definition pad2 (n : Z) : string :=
  if (n <? 10)%Z then "0" +:+ pretty n else pretty n.

Definition dayName (n : Z) : string :=
  default "" (["Sun"; "Mon"; "Tue"; "Wed"; "Thu"; "Fri"; "Sat"] !! Z.to_nat n).

Definition monthName (m : Z) : string :=
  default "" (["Jan"; "Feb"; "Mar"; "Apr"; "May"; "Jun";
               "Jul"; "Aug"; "Sep"; "Oct"; "Nov"; "Dec"] !! Z.to_nat (m - 1)).

Definition printDate (t : Z) : string :=
  let secs := (t `div` 1000)%Z in
  let days := (secs `div` 86400)%Z in
  let rest := (secs `mod` 86400)%Z in
  let '(y, m, d) := civilFromDays days in
  dayName ((days + 4) `mod` 7) +:+ " " +:+ monthName m +:+ " " +:+ pad2 d
  +:+ " " +:+ pretty y +:+ " " +:+ pad2 (rest `div` 3600) +:+ ":"
  +:+ pad2 ((rest `mod` 3600) `div` 60) +:+ ":" +:+ pad2 (rest `mod` 60)
  +:+ " GMT+0000 (Coordinated Universal Time)".

(** The row number of a cell address: the digits after its letters. *)
Fixpoint rowOfAddress (address : string) : nat :=
  match address with
  | EmptyString => 0
  | String c address' =>
      if JsString.is_digit c
      then Z.to_nat (default 0%Z (digitsFrom 0 address))
      else rowOfAddress address'
  end.

Definition lastRow (sheet : XLSX.Sheet) : nat :=
  foldr Nat.max 0%nat (rowOfAddress <$> (map_to_list sheet).*1).

(** The object of row [r] (counted from one): the value of each cell
    present in columns A to Z, under the name the header array gives
    to its column. *)
Definition rowObject (sheet : XLSX.Sheet) (header : list string) (r : nat)
  : XLSX.Row :=
  list_to_map
    (omap (fun '(i, key) =>
             let address :=
               String (ascii_of_nat (nat_of_ascii "A" + i)) EmptyString
               +:+ pretty r in
             cell ← sheet !! address; Some (key, XLSX.v cell))
          (imap pair header)).

Definition sheet_to_json (sheet : XLSX.Sheet) (opts : XLSX.Opts)
  : list XLSX.Row :=
  let first := S (Z.to_nat (XLSX.range opts)) in
  omap (fun r =>
          let row := rowObject sheet (XLSX.header opts) r in
          if Nat.eqb (size row) 0 then None else Some row)
       (seq first (S (lastRow sheet) - first)).

#[export] Instance platform : Platform :=
  Build_Platform parseDate printDate sheet_to_json.

End ReferencePlatform.

(** ** Notions of the specification

    Used to state what the code computes, in the arithmetic of numbers:
    the sum from the first value to the last, the arithmetic mean, and
    the population standard deviation, which divides the sum of the
    squared deviations by the count. *)

Definition sumOf (values : list R) : R :=
  foldl (fun sum value => Binary64.add sum value) 0%R values.
Definition arithmeticMean (values : list R) : R :=
  Binary64.div (sumOf values) (INR (length values)).
Definition squaredDeviation (mean value : R) : R :=
  Binary64.mul (Binary64.sub value mean) (Binary64.sub value mean).
Definition populationStdDev (values : list R) : R :=
  Binary64.sqrt
    (Binary64.div (sumOf (squaredDeviation (arithmeticMean values) <$> values))
                  (INR (length values))).
(** A least (greatest) element of a list. *)
Definition isMinimumOf (m : R) (values : list R) : Prop :=
  m ∈ values /\ Forall (fun value => (m <= value)%R) values.
Definition isMaximumOf (m : R) (values : list R) : Prop :=
  m ∈ values /\ Forall (fun value => (value <= m)%R) values.

(** The execution record of a row whose dates are the given instants:
    trimmed names, an absent name being empty, and the minutes from the
    start to the end. *)
Definition recordOf `{Platform} (row : RawRow.t) (startDate endDate : Z)
  : ExecutionRecord.t :=
  {| ExecutionRecord.jobName :=
       JsString.trim (toString (js_or (RawRow.jobName row) (Text "")));
     ExecutionRecord.agentName :=
       JsString.trim (toString (js_or (RawRow.agentName row) (Text "")));
     ExecutionRecord.startDateTime := startDate;
     ExecutionRecord.endDateTime := endDate;
     ExecutionRecord.duration := (IZR (endDate - startDate) / (1000 * 60))%R |}.

(** What one file adds to the batch: the body of the loop of
    [processFiles] before the accumulation. *)
Abbreviation contributionOf file :=
  (fileData ← DataProcessor.readFile file; DataProcessor.processFileData fileData).

(** The header cell of a column, and the test [validateHeaders] makes on
    it: the cell holds a truthy value whose text includes the header. *)
Definition headerCell (sheet : XLSX.Sheet) (column : CONFIG.EXCEL.ColumnKey)
  : jsval :=
  orUndefined (XLSX.v <$> sheet !!
                 (CONFIG.EXCEL.COLUMNS column +:+ pretty CONFIG.EXCEL.HEADER_ROW)).
Definition headerFound `{Platform} (sheet : XLSX.Sheet)
    (column : CONFIG.EXCEL.ColumnKey) : bool :=
  truthy (headerCell sheet column)
  && JsString.includes (toString (headerCell sheet column))
                       (CONFIG.EXCEL.HEADERS column).

(** The job group of a name: the records of that job, in their order. *)
Abbreviation jobsOf jobName data :=
  (filter (fun r => ExecutionRecord.jobName r = jobName) data).

(** ** Sample data *)

Module Samples.

(** A run of [minutes] minutes that starts at [start]. *)
Definition run (jobName agentName : string) (start : Z) (minutes : Z)
  : ExecutionRecord.t :=
  {| ExecutionRecord.jobName := jobName;
     ExecutionRecord.agentName := agentName;
     ExecutionRecord.startDateTime := start;
     ExecutionRecord.endDateTime := (start + minutes * 60000)%Z;
     ExecutionRecord.duration := IZR minutes |}.

(** Three runs of one job, of 10, 20 and 30 minutes, and a single run
    of another job. *)
Definition records : list ExecutionRecord.t :=
  [ run "backup" "agent-1" 1710498600000 10;
    run "report" "agent-2" 1710498600000 45;
    run "backup" "agent-1" 1710585000000 20;
    run "backup" "agent-2" 1710671400000 30 ].

Definition rawRow (jobName agentName startDateTime endDateTime : string)
  : RawRow.t :=
  {| RawRow.jobName := Text jobName;
     RawRow.agentName := Text agentName;
     RawRow.startDateTime := Text startDateTime;
     RawRow.endDateTime := Text endDateTime |}.

(** A valid row, a row whose end is not a date, a valid row, a row
    that ends before it starts, and a row whose start is not a date. *)
Definition goodRow1 := rawRow " backup " "agent-1"
                              "15/03/2024 10:30:00" "15/03/2024 10:40:00".
Definition badEndRow := rawRow "backup" "agent-1"
                               "2024-03-15T10:30:00" "not-a-date".
Definition goodRow2 := rawRow "report" "agent-2"
                              "2024-03-16T08:00:00" "2024-03-16T08:45:00".

Definition badStartRow := rawRow "report" "agent-2"
                                 "pending" "2024-03-16T08:45:00".

Definition cell (text : string) : XLSX.Cell := {| XLSX.v := Text text |}.

(** The four header cells of row 9, with the given text in A9. *)
Definition headerCells (a9 : string) : list (string * XLSX.Cell) :=
  [ ("A9", cell a9); ("E9", cell "Agent Name");
    ("O9", cell "Start Date, Time"); ("Q9", cell "End Date, Time") ].

(** The cells of one data row. *)
Definition dataCells (r : nat) (row : RawRow.t) : list (string * XLSX.Cell) :=
  [ ("A" +:+ pretty r, {| XLSX.v := RawRow.jobName row |});
    ("E" +:+ pretty r, {| XLSX.v := RawRow.agentName row |});
    ("O" +:+ pretty r, {| XLSX.v := RawRow.startDateTime row |});
    ("Q" +:+ pretty r, {| XLSX.v := RawRow.endDateTime row |}) ].

(** A sheet with the expected headers and three data rows. *)
Definition sheet : XLSX.Sheet :=
  list_to_map (headerCells "Job Name" ++ dataCells 11 goodRow1
               ++ dataCells 12 badEndRow ++ dataCells 13 goodRow2).

(** The same rows under a first header that contains the expected
    text without being equal to it. *)
Definition sheetLongHeader : XLSX.Sheet :=
  list_to_map (headerCells "Job Name (scheduler)" ++ dataCells 11 goodRow1
               ++ dataCells 12 badEndRow ++ dataCells 13 goodRow2).

(** The same rows under a first header without the expected text. *)
Definition sheetWrongHeader : XLSX.Sheet :=
  list_to_map (headerCells "Job" ++ dataCells 11 goodRow1
               ++ dataCells 12 badEndRow ++ dataCells 13 goodRow2).

(** The expected headers over rows none of which has valid dates. *)
Definition sheetNoValidRow : XLSX.Sheet :=
  list_to_map (headerCells "Job Name" ++ dataCells 11 badEndRow
               ++ dataCells 12 badStartRow).

(** The expected headers and no data row. *)
Definition sheetNoRow : XLSX.Sheet := list_to_map (headerCells "Job Name").

Definition file (name : string) (sheet : XLSX.Sheet) : File :=
  {| name := name; firstSheet := Some sheet |}.

End Samples.

(** ** [ChartManager]

    The values the charts are drawn from; the calls into the plotting
    library and the page have no counterpart. *)

Module ChartManager.




End ChartManager.

(** * Properties *)

(** ** The primitives on examples *)

Example trim_ex : JsString.trim "  15/03/2024,  10:30 " = "15/03/2024,  10:30".
Proof. reflexivity. Qed.
Example collapse_ex :
  JsString.collapseSpaces (JsString.removeCommas "15/03/2024,  10:30")
  = "15/03/2024 10:30".
Proof. reflexivity. Qed.
Example split_ex : JsString.split "/" "15/03/2024" = ["15"; "03"; "2024"].
Proof. reflexivity. Qed.
Example split_ex2 : JsString.split " " "" = [""].
Proof. reflexivity. Qed.
Example replace_ex :
  JsString.replaceSlashDate "x 03/15/2024 10:30" = "x 2024-03-15 10:30".
Proof. reflexivity. Qed.
Example includes_ex : JsString.includes "My Job Name" "Job Name" = true.
Proof. reflexivity. Qed.
Example ref_parse_iso :
  ReferencePlatform.parseDate "2024-03-15T10:30:00" = Some 1710498600000%Z.
Proof. vm_compute. reflexivity. Qed.
Example ref_parse_space :
  ReferencePlatform.parseDate "2024-03-15 10:30:00" = Some 1710498600000%Z.
Proof. vm_compute. reflexivity. Qed.
Example ref_parse_dmy :
  ReferencePlatform.parseDate "15/03/2024 10:30:00" = None.
Proof. vm_compute. reflexivity. Qed.
Example ref_parse_mdy :
  ReferencePlatform.parseDate "03/15/2024 10:30:00" = Some 1710498600000%Z.
Proof. vm_compute. reflexivity. Qed.
Example ref_toString :
  ReferencePlatform.printDate 1710498600000
  = "Fri Mar 15 2024 10:30:00 GMT+0000 (Coordinated Universal Time)".
Proof. vm_compute. reflexivity. Qed.
Example headerArray_ex :
  take 6 (@DataProcessor.createHeaderArray)
  = ["jobName"; "blank1"; "blank2"; "blank3"; "agentName"; "blank5"].
Proof. vm_compute. reflexivity. Qed.
Example parse_with_comma_and_spaces :
  @DataProcessor.parseDateTime ReferencePlatform.platform
    (Text "  15/03/2024,   10:30:00 ") = Some 1710498600000%Z.
Proof. vm_compute. reflexivity. Qed.
Example parse_undefined :
  @DataProcessor.parseDateTime ReferencePlatform.platform Undefined = None.
Proof. reflexivity. Qed.
Example parse_date_object :
  @DataProcessor.parseDateTime ReferencePlatform.platform (DateObj 1710498600000)
  = Some 1710498600000%Z.
Proof. reflexivity. Qed.

(** ** Rounding to a double *)

Lemma Int_part_IZR (n : Z) : Int_part (IZR n) = n.
Proof. symmetry. apply Int_part_spec. lra. Qed.

Lemma roundHalfEven_IZR (n : Z) : Binary64.roundHalfEven (IZR n) = n.
Proof.
  unfold Binary64.roundHalfEven. cbv zeta. rewrite Int_part_IZR.
  rewrite decide_True by lra. done.
Qed.

Lemma roundHalfEven_error (t : R) :
  (Rabs (IZR (Binary64.roundHalfEven t) - t) <= 1 / 2)%R.
Proof.
  unfold Binary64.roundHalfEven. cbv zeta.
  destruct (base_Int_part t) as [Hle Hgt].
  repeat (destruct (decide _)); try destruct (Z.even _);
    rewrite ?plus_IZR; apply Rabs_le; lra.
Qed.

Lemma roundHalfEven_ge (n : Z) (t : R) :
  (IZR n <= t)%R -> (n <= Binary64.roundHalfEven t)%Z.
Proof.
  intros Hn. destruct (base_Int_part t) as [Hle Hgt].
  assert (n <= Int_part t)%Z as Hfloor.
  { apply Z.lt_succ_r. apply lt_IZR. rewrite succ_IZR. lra. }
  unfold Binary64.roundHalfEven. cbv zeta.
  repeat (destruct (decide _)); try destruct (Z.even _); lia.
Qed.

Lemma roundHalfEven_le (n : Z) (t : R) :
  (t <= IZR n)%R -> (Binary64.roundHalfEven t <= n)%Z.
Proof.
  intros Hn. destruct (base_Int_part t) as [Hle Hgt].
  assert (Int_part t <= n)%Z as Hfloor by (apply le_IZR; lra).
  unfold Binary64.roundHalfEven. cbv zeta.
  destruct (decide _) as [|Hhalf]; [done|].
  assert (Int_part t < n)%Z as Hlt by (apply lt_IZR; lra).
  repeat (destruct (decide _)); try destruct (Z.even _); lia.
Qed.

Lemma ln_2_pos : (0 < ln 2)%R.
Proof. rewrite <- ln_1. apply ln_increasing; lra. Qed.

Lemma exp_le (x y : R) : (x <= y)%R -> (exp x <= exp y)%R.
Proof.
  intros [Hlt| ->]; [|lra]. left. by apply exp_increasing.
Qed.

Lemma powerRZ_2_exp (k : Z) : powerRZ 2 k = exp (IZR k * ln 2).
Proof. rewrite powerRZ_Rpower by lra. reflexivity. Qed.

Lemma powerRZ_2_le (n m : Z) : (n <= m)%Z -> (powerRZ 2 n <= powerRZ 2 m)%R.
Proof.
  intros Hle. rewrite !powerRZ_2_exp. apply exp_le.
  apply Rmult_le_compat_r; [pose proof ln_2_pos; lra|]. by apply IZR_le.
Qed.

Lemma powerRZ_2_lt (n m : Z) : (n < m)%Z -> (powerRZ 2 n < powerRZ 2 m)%R.
Proof.
  intros Hlt. rewrite !powerRZ_2_exp. apply exp_increasing.
  apply Rmult_lt_compat_r; [apply ln_2_pos|]. by apply IZR_lt.
Qed.

Lemma powerRZ_2_lt_inv (n m : Z) : (powerRZ 2 n < powerRZ 2 m)%R -> (n < m)%Z.
Proof.
  intros Hlt. destruct (Z_lt_le_dec n m) as [|Hle]; [done|].
  apply powerRZ_2_le in Hle. lra.
Qed.

Lemma powerRZ_2_pos (k : Z) : (0 < powerRZ 2 k)%R.
Proof. apply powerRZ_lt. lra. Qed.

Lemma powerRZ_2_IZR (k : Z) : (0 <= k)%Z -> powerRZ 2 k = IZR (2 ^ k).
Proof.
  intros Hk. rewrite <- (Z2Nat.id k Hk) at 1. rewrite <- pow_powerRZ.
  rewrite pow_IZR. by rewrite Z2Nat.id.
Qed.

Lemma powerRZ_2_split (n m : Z) :
  powerRZ 2 (n + m) = (powerRZ 2 n * powerRZ 2 m)%R.
Proof. apply powerRZ_add. lra. Qed.

(** The binade of a number. *)
Lemma log2_bounds (x : R) :
  x <> 0%R ->
  (powerRZ 2 (Int_part (ln (Rabs x) / ln 2)) <= Rabs x
   < powerRZ 2 (Int_part (ln (Rabs x) / ln 2) + 1))%R.
Proof.
  intros Hx. pose proof (Rabs_pos_lt x Hx) as Ha. pose proof ln_2_pos as H2.
  destruct (base_Int_part (ln (Rabs x) / ln 2)) as [Hle Hgt].
  set (e := Int_part (ln (Rabs x) / ln 2)) in *.
  assert (ln (Rabs x) = ln (Rabs x) / ln 2 * ln 2)%R as Hln by (field; lra).
  rewrite !powerRZ_2_exp. split.
  - rewrite <- (exp_ln (Rabs x) Ha) at 1. apply exp_le. rewrite Hln.
    apply Rmult_le_compat_r; lra.
  - rewrite <- (exp_ln (Rabs x) Ha) at 1. apply exp_increasing.
    rewrite Hln at 1. rewrite plus_IZR. apply Rmult_lt_compat_r; lra.
Qed.

Lemma log2_unique (y : R) (k : Z) :
  (powerRZ 2 k <= Rabs y < powerRZ 2 (k + 1))%R ->
  Int_part (ln (Rabs y) / ln 2) = k.
Proof.
  intros [Hle Hlt]. pose proof ln_2_pos as H2.
  pose proof (powerRZ_2_pos k) as Hk.
  assert (0 < Rabs y)%R as Ha by lra.
  symmetry. apply Int_part_spec.
  rewrite !powerRZ_2_exp in *. rewrite <- (exp_ln (Rabs y) Ha) in Hle, Hlt.
  assert (IZR k * ln 2 <= ln (Rabs y))%R as H1.
  { destruct (Rle_lt_dec (IZR k * ln 2) (ln (Rabs y))) as [|Hc]; [done|].
    apply exp_increasing in Hc. lra. }
  apply exp_lt_inv in Hlt. rewrite plus_IZR in Hlt.
  assert (ln (Rabs y) / ln 2 * ln 2 = ln (Rabs y))%R as Hln by (field; lra).
  split.
  - apply Rmult_lt_reg_r with (r := ln 2); [done|]. lra.
  - apply Rmult_le_reg_r with (r := ln 2); [done|]. lra.
Qed.

Lemma round_0 : Binary64.round 0 = 0%R.
Proof.
  unfold Binary64.round. unfold Rdiv. rewrite Rmult_0_l.
  rewrite (roundHalfEven_IZR 0). lra.
Qed.

Lemma exponent_ge (x : R) : (-1022 <= Binary64.exponent x)%Z.
Proof. unfold Binary64.exponent. lia. Qed.

Lemma ulp_pos (x : R) : (0 < Binary64.ulp x)%R.
Proof. apply powerRZ_2_pos. Qed.


(** Rounding moves a number by at most half a unit in the last place. *)
Lemma round_error_ulp (x : R) :
  (Rabs (Binary64.round x - x) <= Binary64.ulp x / 2)%R.
Proof.
  unfold Binary64.round. pose proof (ulp_pos x) as Hulp.
  pose proof (roundHalfEven_error (x / Binary64.ulp x)) as Herr.
  replace (IZR (Binary64.roundHalfEven (x / Binary64.ulp x)) * Binary64.ulp x - x)%R
    with ((IZR (Binary64.roundHalfEven (x / Binary64.ulp x)) - x / Binary64.ulp x)
          * Binary64.ulp x)%R by (field; lra).
  rewrite Rabs_mult, (Rabs_pos_eq (Binary64.ulp x)) by lra.
  apply Rle_trans with (1 / 2 * Binary64.ulp x)%R; [|lra].
  apply Rmult_le_compat_r; lra.
Qed.

(** The relative error of rounding a number of magnitude 1 or more. *)
Lemma round_error (x : R) :
  (1 <= Rabs x)%R ->
  (Rabs (Binary64.round x - x) <= Rabs x / 9007199254740992)%R.
Proof.
  intros Hx. assert (x <> 0%R) as Hne.
  { intros ->. rewrite Rabs_R0 in Hx. lra. }
  destruct (log2_bounds x Hne) as [Hlow Hhigh].
  set (e := Int_part (ln (Rabs x) / ln 2)) in *.
  assert (0 <= e)%Z as He.
  { apply Z.lt_succ_r. apply powerRZ_2_lt_inv.
    rewrite powerRZ_O. unfold Z.succ. lra. }
  pose proof (round_error_ulp x) as Herr.
  unfold Binary64.ulp, Binary64.exponent in Herr. fold e in Herr.
  rewrite Z.max_l in Herr by lia.
  replace (e - 52)%Z with (e + -52)%Z in Herr by lia.
  rewrite powerRZ_2_split in Herr.
  assert (powerRZ 2 (-52) = / 4503599627370496)%R as H52.
  { change (-52)%Z with (- (52))%Z.
    rewrite powerRZ_neg', (powerRZ_2_IZR 52) by lia. reflexivity. }
  rewrite H52 in Herr. lra.
Qed.

Lemma powerRZ_2_neg (k : Z) : powerRZ 2 (- k) = (/ powerRZ 2 k)%R.
Proof. apply powerRZ_neg'. Qed.

(** The numbers [m * 2 ^ (e - 52)] with [e] at least -1022 and [m] an
    integer below [2 ^ 53] in magnitude, and at least [2 ^ 52] unless
    [e] is -1022, are the doubles: rounding leaves them as they are. *)
Lemma round_double (m e : Z) :
  (-1022 <= e)%Z -> (Z.abs m < 2 ^ 53)%Z ->
  (2 ^ 52 <= Z.abs m)%Z \/ e = (-1022)%Z ->
  Binary64.round (IZR m * powerRZ 2 (e - 52)) = (IZR m * powerRZ 2 (e - 52))%R.
Proof.
  intros He Hm Hnormal.
  destruct (decide (m = 0%Z)) as [->|Hm0].
  { rewrite Rmult_0_l. apply round_0. }
  pose proof (powerRZ_2_pos (e - 52)) as Hpos.
  set (y := (IZR m * powerRZ 2 (e - 52))%R).
  assert (Rabs y = IZR (Z.abs m) * powerRZ 2 (e - 52))%R as Habs.
  { unfold y. rewrite Rabs_mult, (Rabs_pos_eq (powerRZ 2 (e - 52))) by lra.
    by rewrite abs_IZR. }
  assert (y <> 0%R) as Hy.
  { unfold y. apply Rmult_integral_contrapositive. split; [|lra].
    intros Hz. by apply eq_IZR in Hz. }
  assert (Binary64.exponent y = e) as Hexp.
  { unfold Binary64.exponent. destruct (log2_bounds y Hy) as [Hlow Hhigh].
    set (k := Int_part (ln (Rabs y) / ln 2)) in *.
    assert (Rabs y < powerRZ 2 (e + 1))%R as Hupper.
    { rewrite Habs. replace (e + 1)%Z with (53 + (e - 52))%Z by lia.
      rewrite powerRZ_2_split, (powerRZ_2_IZR 53) by lia.
      apply Rmult_lt_compat_r; [done|]. by apply IZR_lt. }
    assert (k < e + 1)%Z as Hk by (apply powerRZ_2_lt_inv; lra).
    destruct Hnormal as [Hnormal| ->]; [|lia].
    assert (powerRZ 2 e <= Rabs y)%R as Hlower.
    { rewrite Habs. replace e with (52 + (e - 52))%Z at 1 by lia.
      rewrite powerRZ_2_split, (powerRZ_2_IZR 52) by lia.
      apply Rmult_le_compat_r; [lra|]. by apply IZR_le. }
    assert (e < k + 1)%Z by (apply powerRZ_2_lt_inv; lra). lia. }
  unfold Binary64.round, Binary64.ulp. rewrite Hexp.
  replace (y / powerRZ 2 (e - 52))%R with (IZR m) by (unfold y; field; lra).
  by rewrite roundHalfEven_IZR.
Qed.

(** Every integer up to [2 ^ 53] in magnitude is a double. *)
Lemma round_IZR (z : Z) :
  (Z.abs z <= 2 ^ 53)%Z -> Binary64.round (IZR z) = IZR z.
Proof.
  intros Hz. destruct (decide (z = 0%Z)) as [->|Hz0]; [apply round_0|].
  assert (IZR z <> 0%R) as Hne by (intros H0; by apply eq_IZR in H0).
  destruct (log2_bounds (IZR z) Hne) as [Hlow Hhigh].
  set (e := Int_part (ln (Rabs (IZR z)) / ln 2)) in *.
  rewrite <- abs_IZR in Hlow, Hhigh.
  assert (0 <= e)%Z as He0.
  { apply Z.lt_succ_r. apply powerRZ_2_lt_inv. rewrite powerRZ_O.
    assert (1 <= IZR (Z.abs z))%R by (apply IZR_le; lia). unfold Z.succ. lra. }
  assert (e <= 53)%Z as He53.
  { apply Z.lt_succ_r. apply powerRZ_2_lt_inv.
    assert (IZR (Z.abs z) <= powerRZ 2 53)%R
      by (rewrite (powerRZ_2_IZR 53) by lia; by apply IZR_le).
    assert (powerRZ 2 53 < powerRZ 2 (Z.succ 53))%R
      by (apply powerRZ_2_lt; lia). lra. }
  rewrite (powerRZ_2_IZR e He0) in Hlow. apply le_IZR in Hlow.
  destruct (decide (e = 53%Z)) as [He|He].
  - (* the integer is [2 ^ 53] or its opposite *)
    rewrite He in Hlow.
    assert (z = 2 ^ 53 \/ z = - 2 ^ 53)%Z as [-> | ->] by lia.
    + assert (IZR (2 ^ 53) = IZR (2 ^ 52) * powerRZ 2 (53 - 52))%R as ->
        by (change (53 - 52)%Z with 1%Z; by rewrite powerRZ_1, <- mult_IZR).
      apply round_double; [lia|done|by left].
    + assert (IZR (- 2 ^ 53) = IZR (- 2 ^ 52) * powerRZ 2 (53 - 52))%R as ->
        by (change (53 - 52)%Z with 1%Z; by rewrite powerRZ_1, <- mult_IZR).
      apply round_double; [lia|done|by left].
  - assert (IZR z = IZR (z * 2 ^ (52 - e)) * powerRZ 2 (e - 52))%R as ->.
    { rewrite mult_IZR, <- (powerRZ_2_IZR (52 - e)) by lia.
      rewrite Rmult_assoc, <- powerRZ_2_split.
      replace (52 - e + (e - 52))%Z with 0%Z by lia. rewrite powerRZ_O. lra. }
    rewrite (powerRZ_2_IZR (e + 1)) in Hhigh by lia. apply lt_IZR in Hhigh.
    assert (2 ^ 52 = 2 ^ e * 2 ^ (52 - e))%Z as H52
      by (rewrite <- Z.pow_add_r by lia; f_equal; lia).
    assert (2 ^ 53 = 2 ^ (e + 1) * 2 ^ (52 - e))%Z as H53
      by (rewrite <- Z.pow_add_r by lia; f_equal; lia).
    assert (0 < 2 ^ (52 - e))%Z as Hp by (apply Z.pow_pos_nonneg; lia).
    apply round_double; [lia|..].
    + rewrite Z.abs_mul, (Z.abs_eq (2 ^ (52 - e))) by lia. rewrite H53.
      by apply Z.mul_lt_mono_pos_r.
    + left. rewrite Z.abs_mul, (Z.abs_eq (2 ^ (52 - e))) by lia. rewrite H52.
      by apply Z.mul_le_mono_nonneg_r; [lia|].
Qed.

(** The result of a rounding is a double: rounding it again changes
    nothing. *)
Lemma round_idempotent (x : R) :
  Binary64.round (Binary64.round x) = Binary64.round x.
Proof.
  destruct (Req_dec x 0) as [->|Hx]; [by rewrite !round_0|].
  pose proof (ulp_pos x) as Hulp. pose proof (exponent_ge x) as Hexp.
  destruct (log2_bounds x Hx) as [Hlow Hhigh].
  unfold Binary64.round at 2 3. unfold Binary64.ulp in *.
  unfold Binary64.exponent in *.
  set (e0 := Int_part (ln (Rabs x) / ln 2)) in *.
  set (e := Z.max e0 (-1022)) in *.
  set (t := (x / powerRZ 2 (e - 52))%R).
  assert (Rabs t = Rabs x / powerRZ 2 (e - 52))%R as Habs.
  { unfold t, Rdiv. rewrite Rabs_mult, Rabs_inv.
    by rewrite (Rabs_pos_eq (powerRZ 2 (e - 52))) by lra. }
  assert (Rabs t < IZR (2 ^ 53))%R as Hupper.
  { rewrite Habs. apply Rmult_lt_reg_r with (r := powerRZ 2 (e - 52)); [done|].
    unfold Rdiv. rewrite Rmult_assoc, Rinv_l, Rmult_1_r by lra.
    rewrite <- (powerRZ_2_IZR 53), <- powerRZ_2_split by lia.
    apply Rlt_le_trans with (1 := Hhigh). apply powerRZ_2_le. lia. }
  assert ((e0 < -1022)%Z \/ (IZR (2 ^ 52) <= Rabs t)%R) as Hlower.
  { destruct (Z_lt_le_dec e0 (-1022)) as [|He0]; [by left|right].
    rewrite Habs. apply Rmult_le_reg_r with (r := powerRZ 2 (e - 52)); [done|].
    unfold Rdiv. rewrite Rmult_assoc, Rinv_l, Rmult_1_r by lra.
    rewrite <- (powerRZ_2_IZR 52), <- powerRZ_2_split by lia.
    apply Rle_trans with (2 := Hlow). apply powerRZ_2_le. lia. }
  set (m := Binary64.roundHalfEven t).
  assert (Z.abs m <= 2 ^ 53)%Z as Hm.
  { apply Z.abs_le. split.
    - apply roundHalfEven_ge. rewrite opp_IZR.
      pose proof (Rabs_def2 _ _ Hupper). lra.
    - apply roundHalfEven_le. pose proof (Rabs_def2 _ _ Hupper). lra. }
  assert (2 ^ 52 <= Z.abs m \/ e = -1022)%Z as Hnormal.
  { destruct Hlower as [He0|Ht]; [right; lia|left].
    destruct (Rle_lt_dec 0 t) as [Hpos|Hneg].
    - rewrite Rabs_pos_eq in Ht by done.
      apply (roundHalfEven_ge _ t) in Ht. fold m in Ht. lia.
    - rewrite Rabs_left in Ht by done.
      assert (t <= IZR (- 2 ^ 52))%R as Ht' by (rewrite opp_IZR; lra).
      apply (roundHalfEven_le _ t) in Ht'. fold m in Ht'. lia. }
  destruct (decide (Z.abs m = 2 ^ 53)%Z) as [Hmax|Hmax];
    [|apply round_double; lia].
  assert (m = 2 ^ 53 \/ m = - 2 ^ 53)%Z as [Heq|Heq] by lia; rewrite Heq.
  - assert (IZR (2 ^ 53) * powerRZ 2 (e - 52)
            = IZR (2 ^ 52) * powerRZ 2 (e + 1 - 52))%R as ->.
    { replace (e + 1 - 52)%Z with (1 + (e - 52))%Z by lia.
      rewrite powerRZ_2_split, powerRZ_1, <- Rmult_assoc, <- mult_IZR. done. }
    apply round_double; [lia|done|by left].
  - assert (IZR (- 2 ^ 53) * powerRZ 2 (e - 52)
            = IZR (- 2 ^ 52) * powerRZ 2 (e + 1 - 52))%R as ->.
    { replace (e + 1 - 52)%Z with (1 + (e - 52))%Z by lia.
      rewrite powerRZ_2_split, powerRZ_1, <- Rmult_assoc, <- mult_IZR. done. }
    apply round_double; [lia|done|by left].
Qed.

(** The results of the operators are doubles. *)
Lemma round_div (a b : R) :
  Binary64.round (Binary64.div a b) = Binary64.div a b.
Proof. apply round_idempotent. Qed.

Lemma round_sqrt (a : R) : Binary64.round (Binary64.sqrt a) = Binary64.sqrt a.
Proof. apply round_idempotent. Qed.

(** What the operators do on integers whose result is an integer. *)
Lemma add_IZR (a b c : Z) :
  (a + b = c)%Z -> (Z.abs c <= 2 ^ 53)%Z ->
  Binary64.add (IZR a) (IZR b) = IZR c.
Proof.
  intros <- Hz. unfold Binary64.add. rewrite <- plus_IZR. by apply round_IZR.
Qed.

Lemma sub_IZR (a b c : Z) :
  (a - b = c)%Z -> (Z.abs c <= 2 ^ 53)%Z ->
  Binary64.sub (IZR a) (IZR b) = IZR c.
Proof.
  intros <- Hz. unfold Binary64.sub. rewrite <- minus_IZR. by apply round_IZR.
Qed.

Lemma mul_IZR (a b c : Z) :
  (a * b = c)%Z -> (Z.abs c <= 2 ^ 53)%Z ->
  Binary64.mul (IZR a) (IZR b) = IZR c.
Proof.
  intros <- Hz. unfold Binary64.mul. rewrite <- mult_IZR. by apply round_IZR.
Qed.

Lemma div_IZR (a b q : Z) :
  b <> 0%Z -> a = (q * b)%Z -> (Z.abs q <= 2 ^ 53)%Z ->
  Binary64.div (IZR a) (IZR b) = IZR q.
Proof.
  intros Hb -> Hq. unfold Binary64.div. rewrite mult_IZR.
  replace (IZR q * IZR b / IZR b)%R with (IZR q).
  - by apply round_IZR.
  - field. intros H0. by apply eq_IZR in H0.
Qed.

Lemma Math_pow2_IZR (a c : Z) :
  (a * a = c)%Z -> (Z.abs c <= 2 ^ 53)%Z -> Utils.Math_pow2 (IZR a) = IZR c.
Proof.
  intros <- Hz. unfold Utils.Math_pow2.
  replace (IZR a ^ 2)%R with (IZR (a * a)) by (rewrite mult_IZR; ring).
  by apply round_IZR.
Qed.

(** Closes the side conditions of these lemmas on literals. *)
Ltac small_integers := first [reflexivity | by vm_compute].

Lemma Rabs_le_between (a b : R) : (Rabs a <= b)%R -> (- b <= a <= b)%R.
Proof. unfold Rabs. destruct (Rcase_abs a); lra. Qed.

(** A number of magnitude 1 or more, rounded, stays within the bounds
    that hold for it with a margin of one part in a million. *)
Lemma round_between (lo hi x : R) :
  (1 <= lo)%R -> (lo * (1 + / 1000000) <= x)%R -> (x <= hi * (1 - / 1000000))%R ->
  (lo <= Binary64.round x <= hi)%R.
Proof.
  intros Hlo Hlow Hhigh.
  assert (1 <= Rabs x)%R as Hx by (rewrite Rabs_pos_eq; lra).
  pose proof (round_error x Hx) as Herr.
  rewrite (Rabs_pos_eq x) in Herr by lra.
  apply Rabs_le_between in Herr. lra.
Qed.

(** ** Grouping and folding over groups *)

Lemma Forall_not_Exists {A : Type} (P : A -> Prop) (l : list A) :
  Forall (fun x => ~ P x) l -> Exists P l -> False.
Proof.
  intros Hall (x & Hin & Hx)%Exists_exists.
  rewrite Forall_forall in Hall. by apply (Hall x).
Qed.

Section GroupBy.
Context {A : Type} (key : A -> string).

Lemma groupBy_foldl_Throw (array : list A) e :
  foldl (fun groups item => groups ← groups; Utils.groupBy_reducer key groups item)
        (Throw e) array
  = Throw e.
Proof. induction array as [|item array IH]; [done|]. exact IH. Qed.

(** The fold of [groupBy] from groups without a key of
    [Object.prototype]: it throws exactly when an item has such a key,
    and otherwise appends to the group of each key its items, in their
    order. *)
Lemma groupBy_foldl (array : list A) (groups : gmap string (list A)) :
  (forall k, k ∈ Utils.Object_prototype -> groups !! k = None) ->
  match foldl (fun groups item =>
                 groups ← groups; Utils.groupBy_reducer key groups item)
              (Ok groups) array with
  | Ok groups' =>
      Forall (fun item => key item ∉ Utils.Object_prototype) array
      /\ forall k,
           groups' !! k
           = match filter (fun item => key item = k) array with
             | [] => groups !! k
             | found => Some (default [] (groups !! k) ++ found)
             end
  | Throw e =>
      e = TypeError "group.push is not a function"
      /\ Exists (fun item => key item ∈ Utils.Object_prototype) array
  end.
Proof.
  revert groups. induction array as [|item array IH]; intros groups Hown.
  { cbn. split; [constructor|done]. }
  cbn [foldl]. change (Ok groups ≫= _) with (Utils.groupBy_reducer key groups item).
  unfold Utils.groupBy_reducer.
  destruct (groups !! key item) as [group|] eqn:Hgroup.
  - assert (key item ∉ Utils.Object_prototype) as Hkey
      by (intros Hin; by rewrite (Hown _ Hin) in Hgroup).
    specialize (IH (<[key item := group ++ [item]]> groups)).
    destruct (foldl _ _ array) as [groups'|e].
    + destruct IH as [Hall Hlookup].
      { intros k Hk. rewrite lookup_insert_ne; [by apply Hown|].
        intros Heq. apply Hkey. by rewrite Heq. }
      split; [by constructor|]. intros k. rewrite Hlookup, filter_cons.
      destruct (decide (key item = k)) as [<-|Hne].
      * rewrite lookup_insert_eq, Hgroup. cbn [default].
        destruct (filter _ array); [done|].
        unfold Datatypes.id. by rewrite <- app_assoc.
      * by rewrite lookup_insert_ne.
    + destruct IH as [-> Hex].
      { intros k Hk. rewrite lookup_insert_ne; [by apply Hown|].
        intros Heq. apply Hkey. by rewrite Heq. }
      split; [done|]. by apply Exists_cons_tl.
  - destruct (decide (key item ∈ Utils.Object_prototype)) as [Hkey|Hkey].
    { rewrite groupBy_foldl_Throw. split; [done|]. by apply Exists_cons_hd. }
    specialize (IH (<[key item := [item]]> groups)).
    destruct (foldl _ _ array) as [groups'|e].
    + destruct IH as [Hall Hlookup].
      { intros k Hk. rewrite lookup_insert_ne; [by apply Hown|].
        intros Heq. apply Hkey. by rewrite Heq. }
      split; [by constructor|]. intros k. rewrite Hlookup, filter_cons.
      destruct (decide (key item = k)) as [<-|Hne].
      * rewrite lookup_insert_eq, Hgroup. cbn [default].
        by destruct (filter _ array).
      * by rewrite lookup_insert_ne.
    + destruct IH as [-> Hex].
      { intros k Hk. rewrite lookup_insert_ne; [by apply Hown|].
        intros Heq. apply Hkey. by rewrite Heq. }
      split; [done|]. by apply Exists_cons_tl.
Qed.

(** [groupBy] throws exactly when an item has a key of
    [Object.prototype]. Otherwise the group of a key holds the items
    with that key, in their order of appearance, and a key no item has
    owns no group. *)
Lemma groupBy_cases (array : list A) :
  match Utils.groupBy key array with
  | Ok groups =>
      Forall (fun item => key item ∉ Utils.Object_prototype) array
      /\ forall k,
           groups !! k
           = match filter (fun item => key item = k) array with
             | [] => None
             | found => Some found
             end
  | Throw e =>
      e = TypeError "group.push is not a function"
      /\ Exists (fun item => key item ∈ Utils.Object_prototype) array
  end.
Proof.
  unfold Utils.groupBy.
  pose proof (groupBy_foldl array ∅ (fun k _ => lookup_empty k)) as Hfold.
  destruct (foldl _ _ array) as [groups|e]; [|done].
  destruct Hfold as [Hall Hlookup]. split; [done|].
  intros k. rewrite Hlookup, lookup_empty. by destruct (filter _ array).
Qed.


Lemma groupBy_Throw (array : list A) :
  Exists (fun item => key item ∈ Utils.Object_prototype) array ->
  Utils.groupBy key array = Throw (TypeError "group.push is not a function").
Proof.
  intros Hex. pose proof (groupBy_cases array) as Hcases.
  destruct (Utils.groupBy key array) as [groups|e].
  - destruct Hcases as [Hall _]. destruct (Forall_not_Exists _ _ Hall Hex).
  - by destruct Hcases as [-> _].
Qed.

Lemma groupBy_lookup (array : list A) groups k :
  Utils.groupBy key array = Ok groups ->
  groups !! k
  = match filter (fun item => key item = k) array with
    | [] => None
    | found => Some found
    end.
Proof.
  intros Hok. pose proof (groupBy_cases array) as Hcases.
  rewrite Hok in Hcases. apply Hcases.
Qed.

Lemma groupBy_nonempty (array : list A) groups k group :
  Utils.groupBy key array = Ok groups ->
  groups !! k = Some group -> group <> [].
Proof.
  intros Hok. rewrite (groupBy_lookup _ _ _ Hok).
  destruct (filter _ array); [done|]. by intros [= <-].
Qed.

Lemma groupBy_dom (array : list A) groups :
  Utils.groupBy key array = Ok groups ->
  dom groups = list_to_set (key <$> array).
Proof.
  intros Hok. apply set_eq. intros k.
  rewrite elem_of_dom, (groupBy_lookup _ _ _ Hok), elem_of_list_to_set,
    list_elem_of_fmap.
  split.
  - destruct (filter _ array) as [|item found] eqn:Hf; [by intros [? ?]|].
    intros _. exists item.
    assert (item ∈ filter (fun item => key item = k) array) as Hin
      by (rewrite Hf; left).
    apply list_elem_of_filter in Hin as [Hkey Hmem]. by split.
  - intros (item & -> & Hin).
    assert (item ∈ filter (fun i => key i = key item) array) as Hin'
      by (by apply list_elem_of_filter).
    destruct (filter _ array); [by apply not_elem_of_nil in Hin'|done].
Qed.
End GroupBy.

(** The fold that fills one entry per group succeeds when the body
    succeeds on every group, and then has exactly the keys of the
    groups, each with the result of the body on its group. *)
Lemma map_fold_entries {A B : Type} (f : A -> result B) (groups : gmap string A) :
  (forall k x, groups !! k = Some x -> exists e, f x = Ok e) ->
  exists out : gmap string B,
    map_fold (fun k x (acc : result (gmap string B)) =>
                acc ← acc; e ← f x; mret (<[k := e]> acc)) (Ok ∅) groups
    = Ok out
    /\ forall k, match groups !! k with
                 | Some x => exists e, out !! k = Some e /\ f x = Ok e
                 | None => out !! k = None
                 end.
Proof.
  apply (map_fold_weak_ind
    (fun r (m : gmap string A) =>
       (forall k x, m !! k = Some x -> exists e, f x = Ok e) ->
       exists out : gmap string B,
         r = Ok out
         /\ forall k, match m !! k with
                      | Some x => exists e, out !! k = Some e /\ f x = Ok e
                      | None => out !! k = None
                      end)).
  - intros _. exists ∅. split; [done|]. intros k. by rewrite !lookup_empty.
  - intros i x m r Hi IH Hall.
    destruct IH as (out & -> & Hout).
    { intros k y Hk. apply (Hall k y). rewrite lookup_insert_ne; [done|].
      intros ->. by rewrite Hi in Hk. }
    destruct (Hall i x) as [e He]; [by rewrite lookup_insert_eq|].
    exists (<[i := e]> out). split.
    + cbn. rewrite He. done.
    + intros k. destruct (decide (i = k)) as [->|Hne].
      * rewrite !lookup_insert_eq. by exists e.
      * rewrite !lookup_insert_ne by done. apply Hout.
Qed.

(** The records are grouped by job and one entry is made per group, by
    a body that succeeds on every group that is not empty. This throws
    the [TypeError] of [groupBy] when a job is named like a member of
    [Object.prototype]; otherwise the result has one entry per job name
    of the records, made from the records of that job in their order. *)
Lemma grouped_entries {B : Type} (f : list ExecutionRecord.t -> result B)
    (data : list ExecutionRecord.t) :
  (forall jobs, jobs <> [] -> exists e, f jobs = Ok e) ->
  match
    jobGroups ← Utils.groupBy ExecutionRecord.jobName data;
    map_fold (fun k x (acc : result (gmap string B)) =>
                acc ← acc; e ← f x; mret (<[k := e]> acc)) (Ok ∅) jobGroups
  with
  | Ok out =>
      Forall (fun r => ExecutionRecord.jobName r ∉ Utils.Object_prototype) data
      /\ forall job,
           match jobsOf job data with
           | [] => out !! job = None
           | jobs => exists entry, out !! job = Some entry /\ f jobs = Ok entry
           end
  | Throw e =>
      e = TypeError "group.push is not a function"
      /\ Exists (fun r => ExecutionRecord.jobName r ∈ Utils.Object_prototype) data
  end.
Proof.
  intros Hf. pose proof (groupBy_cases ExecutionRecord.jobName data) as Hcases.
  destruct (Utils.groupBy ExecutionRecord.jobName data) as [groups|e] eqn:Hgroups;
    [|exact Hcases].
  destruct Hcases as [Hall Hlookup].
  destruct (map_fold_entries f groups) as (out & Hfold & Hentries).
  { intros k jobs Hk. apply Hf. by eapply groupBy_nonempty. }
  cbn [mbind result_bind]. change (Ok groups ≫= _) with
    (map_fold (fun k x (acc : result (gmap string B)) =>
                 acc ← acc; e ← f x; mret (<[k := e]> acc)) (Ok ∅) groups).
  rewrite Hfold. split; [done|].
  intros job. specialize (Hentries job). rewrite Hlookup in Hentries.
  by destruct (jobsOf job data).
Qed.

(** ** [Utils.calculateStats] *)

Lemma reduce_sum_sumOf (values : list R) : Utils.reduce_sum values = sumOf values.
Proof. reflexivity. Qed.

Lemma Math_pow2_squaredDeviation (mean value : R) :
  Utils.Math_pow2 (Binary64.sub value mean) = squaredDeviation mean value.
Proof.
  unfold Utils.Math_pow2, squaredDeviation, Binary64.mul. f_equal. ring.
Qed.

Lemma foldl_Rmin_spec (others : list R) (first : R) :
  isMinimumOf (foldl Rmin first others) (first :: others).
Proof.
  revert first. induction others as [|value others IH]; intros first; cbn.
  - split; [left|]. apply Forall_cons. split; [lra|constructor].
  - destruct (IH (Rmin first value)) as [Hin Hall]. split.
    + apply elem_of_cons in Hin as [->|Hin].
      * unfold Rmin. destruct (Rle_dec first value); [left|right; left].
      * right; by right.
    + apply Forall_cons in Hall as [Hm Hall].
      pose proof (Rmin_l first value). pose proof (Rmin_r first value).
      apply Forall_cons. split; [lra|]. apply Forall_cons. split; [lra|done].
Qed.

Lemma foldl_Rmax_spec (others : list R) (first : R) :
  isMaximumOf (foldl Rmax first others) (first :: others).
Proof.
  revert first. induction others as [|value others IH]; intros first; cbn.
  - split; [left|]. apply Forall_cons. split; [lra|constructor].
  - destruct (IH (Rmax first value)) as [Hin Hall]. split.
    + apply elem_of_cons in Hin as [->|Hin].
      * unfold Rmax. destruct (Rle_dec first value); [right; left|left].
      * right; by right.
    + apply Forall_cons in Hall as [Hm Hall].
      pose proof (Rmax_l first value). pose proof (Rmax_r first value).
      apply Forall_cons. split; [lra|]. apply Forall_cons. split; [lra|done].
Qed.

Lemma calculateStats_is_Some (values : list R) :
  values <> [] -> exists stats, Utils.calculateStats values = Some stats.
Proof. destruct values; [done|]. intros _. eexists. reflexivity. Qed.

(** What [calculateStats] returns, in the terms of the specification. *)
Lemma calculateStats_spec (values : list R) (stats : Utils.BasicStats) :
  Utils.calculateStats values = Some stats ->
  Utils.mean stats = arithmeticMean values
  /\ Utils.std stats = populationStdDev values
  /\ isMinimumOf (Utils.min stats) values
  /\ isMaximumOf (Utils.max stats) values
  /\ Utils.count stats = length values.
Proof.
  destruct values as [|first others]; [done|].
  intros [= <-]. cbn [Utils.mean Utils.std Utils.min Utils.max Utils.count].
  split; [done|]. split.
  - unfold populationStdDev.
    rewrite <- (list_fmap_ext _ _ (first :: others)
                  (fun _ value _ =>
                     Math_pow2_squaredDeviation
                       (arithmeticMean (first :: others)) value)).
    reflexivity.
  - split; [apply foldl_Rmin_spec|]. split; [apply foldl_Rmax_spec|done].
Qed.

(** The example of the specification in the terms of the specification:
    the mean of 10, 20 and 30 is 20, and their population standard
    deviation is the square root of 200/3 as numbers have it, about
    8.165. *)
Lemma arithmeticMean_10_20_30 : arithmeticMean [10; 20; 30]%R = 20%R.
Proof.
  unfold arithmeticMean, sumOf. cbn [foldl length].
  rewrite (add_IZR 0 10 10), (add_IZR 10 20 30), (add_IZR 30 30 60)
    by small_integers.
  rewrite INR_IZR_INZ. by apply div_IZR.
Qed.

Lemma populationStdDev_10_20_30 :
  populationStdDev [10; 20; 30]%R = Binary64.sqrt (Binary64.div 200 3).
Proof.
  unfold populationStdDev. rewrite arithmeticMean_10_20_30.
  unfold squaredDeviation, sumOf. cbn [fmap list_fmap foldl length].
  rewrite (sub_IZR 10 20 (-10)), (sub_IZR 20 20 0), (sub_IZR 30 20 10)
    by small_integers.
  rewrite (mul_IZR (-10) (-10) 100), (mul_IZR 0 0 0), (mul_IZR 10 10 100)
    by small_integers.
  rewrite (add_IZR 0 100 100), (add_IZR 100 0 100), (add_IZR 100 100 200)
    by small_integers.
  by rewrite INR_IZR_INZ.
Qed.

Lemma sqrt_between (lo hi x : R) :
  (0 <= lo)%R -> (lo * lo <= x)%R -> (x <= hi * hi)%R -> (0 <= hi)%R ->
  (lo <= sqrt x <= hi)%R.
Proof.
  intros Hlo Hlow Hhigh Hhi.
  rewrite <- (sqrt_square lo), <- (sqrt_square hi) by done.
  split; apply sqrt_le_1_alt; done.
Qed.

Lemma sqrt_200_3_bounds :
  (8164 / 1000 <= Binary64.sqrt (Binary64.div 200 3) <= 8166 / 1000)%R.
Proof.
  unfold Binary64.sqrt, Binary64.div.
  assert (66666 / 1000 <= Binary64.round (200 / 3) <= 66667 / 1000)%R as Hdiv
    by (apply round_between; lra).
  assert (81649 / 10000 <= sqrt (Binary64.round (200 / 3)) <= 81651 / 10000)%R
    as Hsqrt by (apply sqrt_between; lra).
  apply round_between; lra.
Qed.

(** The example of the specification, on [calculateStats] itself. *)
Lemma calculateStats_10_20_30 :
  Utils.calculateStats [10; 20; 30]%R
  = Some {| Utils.min := 10; Utils.max := 30; Utils.mean := 20;
            Utils.std := Binary64.sqrt (Binary64.div 200 3); Utils.count := 3 |}.
Proof.
  assert (Binary64.div (Utils.reduce_sum [10; 20; 30]%R)
                       (INR (length [10; 20; 30]%R)) = 20%R) as Hmean
    by exact arithmeticMean_10_20_30.
  assert (foldl Rmin 10%R [20; 30]%R = 10%R) as Hmin
    by (cbn; unfold Rmin; repeat (destruct (Rle_dec _ _)); lra).
  assert (foldl Rmax 10%R [20; 30]%R = 30%R) as Hmax
    by (cbn; unfold Rmax; repeat (destruct (Rle_dec _ _)); lra).
  unfold Utils.calculateStats. cbv zeta. rewrite Hmean, Hmin, Hmax.
  unfold Utils.reduce_sum. cbn [fmap list_fmap foldl length].
  rewrite (sub_IZR 10 20 (-10)), (sub_IZR 20 20 0), (sub_IZR 30 20 10)
    by small_integers.
  rewrite (Math_pow2_IZR (-10) 100), (Math_pow2_IZR 0 0), (Math_pow2_IZR 10 100)
    by small_integers.
  rewrite (add_IZR 0 100 100), (add_IZR 100 0 100), (add_IZR 100 100 200)
    by small_integers.
  by rewrite INR_IZR_INZ.
Qed.

(** ** The statistics and the overdue analysis, group by group *)

Lemma statisticsOfGroup_is_Ok (jobs : list ExecutionRecord.t) :
  jobs <> [] -> exists entry, DataProcessor.statisticsOfGroup jobs = Ok entry.
Proof.
  intros Hjobs. unfold DataProcessor.statisticsOfGroup.
  destruct jobs as [|job jobs]; [done|]. cbn. eexists. reflexivity.
Qed.

Lemma overdueOfGroup_is_Ok (jobs : list ExecutionRecord.t) :
  jobs <> [] -> exists entry, ExportManager.overdueOfGroup jobs = Ok entry.
Proof.
  intros Hjobs. unfold ExportManager.overdueOfGroup.
  destruct jobs as [|job jobs]; [done|]. cbn. eexists. reflexivity.
Qed.

(** [calculateStatistics] returns when no job is named like a member of
    [Object.prototype]: no group is empty, so that the body never reads
    a [null]. It throws when a job has such a name. *)
Lemma calculateStatistics_Ok (processedData : list ExecutionRecord.t) :
  Forall (fun r => ExecutionRecord.jobName r ∉ Utils.Object_prototype)
         processedData ->
  exists statistics, DataProcessor.calculateStatistics processedData = Ok statistics.
Proof.
  intros Hall.
  pose proof (grouped_entries DataProcessor.statisticsOfGroup processedData
                statisticsOfGroup_is_Ok) as Hcases.
  unfold DataProcessor.calculateStatistics.
  destruct (_ ≫= _) as [statistics|e]; [by exists statistics|].
  destruct Hcases as [_ Hex]. destruct (Forall_not_Exists _ _ Hall Hex).
Qed.

Lemma calculateStatistics_Throw (processedData : list ExecutionRecord.t) :
  Exists (fun r => ExecutionRecord.jobName r ∈ Utils.Object_prototype)
         processedData ->
  DataProcessor.calculateStatistics processedData
  = Throw (TypeError "group.push is not a function").
Proof.
  intros Hex. unfold DataProcessor.calculateStatistics.
  by rewrite (groupBy_Throw _ _ Hex).
Qed.

(** The statistics that [calculateStatistics] returns have one entry
    per job name of the data, computed from the records of that job in
    their order. *)
Lemma calculateStatistics_entries (processedData : list ExecutionRecord.t)
    (statistics : gmap string DataProcessor.JobStatistics) :
  DataProcessor.calculateStatistics processedData = Ok statistics ->
  forall jobName,
    match jobsOf jobName processedData with
    | [] => statistics !! jobName = None
    | jobs => exists entry, statistics !! jobName = Some entry
                /\ DataProcessor.statisticsOfGroup jobs = Ok entry
    end.
Proof.
  intros Hok.
  pose proof (grouped_entries DataProcessor.statisticsOfGroup processedData
                statisticsOfGroup_is_Ok) as Hcases.
  unfold DataProcessor.calculateStatistics in Hok. rewrite Hok in Hcases.
  apply Hcases.
Qed.

Lemma calculateStatistics_Ok_inv (processedData : list ExecutionRecord.t)
    (statistics : gmap string DataProcessor.JobStatistics) :
  DataProcessor.calculateStatistics processedData = Ok statistics ->
  Forall (fun r => ExecutionRecord.jobName r ∉ Utils.Object_prototype)
         processedData.
Proof.
  intros Hok.
  pose proof (grouped_entries DataProcessor.statisticsOfGroup processedData
                statisticsOfGroup_is_Ok) as Hcases.
  unfold DataProcessor.calculateStatistics in Hok. rewrite Hok in Hcases.
  apply Hcases.
Qed.

Lemma calculateOverdueAnalysis_Ok (data : list ExecutionRecord.t) :
  Forall (fun r => ExecutionRecord.jobName r ∉ Utils.Object_prototype) data ->
  exists analysis, ExportManager.calculateOverdueAnalysis data = Ok analysis.
Proof.
  intros Hall.
  pose proof (grouped_entries ExportManager.overdueOfGroup data
                overdueOfGroup_is_Ok) as Hcases.
  unfold ExportManager.calculateOverdueAnalysis.
  destruct (_ ≫= _) as [analysis|e]; [by exists analysis|].
  destruct Hcases as [_ Hex]. destruct (Forall_not_Exists _ _ Hall Hex).
Qed.

Lemma calculateOverdueAnalysis_Throw (data : list ExecutionRecord.t) :
  Exists (fun r => ExecutionRecord.jobName r ∈ Utils.Object_prototype) data ->
  ExportManager.calculateOverdueAnalysis data
  = Throw (TypeError "group.push is not a function").
Proof.
  intros Hex. unfold ExportManager.calculateOverdueAnalysis.
  by rewrite (groupBy_Throw _ _ Hex).
Qed.

Lemma calculateOverdueAnalysis_entries (data : list ExecutionRecord.t)
    (analysis : gmap string ExportManager.OverdueEntry) :
  ExportManager.calculateOverdueAnalysis data = Ok analysis ->
  forall job,
    match jobsOf job data with
    | [] => analysis !! job = None
    | jobs => exists entry, analysis !! job = Some entry
                /\ ExportManager.overdueOfGroup jobs = Ok entry
    end.
Proof.
  intros Hok.
  pose proof (grouped_entries ExportManager.overdueOfGroup data
                overdueOfGroup_is_Ok) as Hcases.
  unfold ExportManager.calculateOverdueAnalysis in Hok. rewrite Hok in Hcases.
  apply Hcases.
Qed.


(** The sample records have the job names backup and report. *)
Lemma Samples_records_names :
  Forall (fun r => ExecutionRecord.jobName r ∉ Utils.Object_prototype)
         Samples.records.
Proof.
  repeat constructor; cbn [Samples.run ExecutionRecord.jobName];
    apply (bool_decide_unpack _); vm_compute; reflexivity.
Qed.

(** ** The Statistics Aggregator *)

(** C1. [calculateStatistics] returns statistics whenever no job is
    named like a member of [Object.prototype]. In the statistics it
    returns, the entry of every job that has records holds the
    arithmetic mean of the durations of the job, their population
    standard deviation (the sum of the squared deviations divided by the
    count), their minimum, their maximum and their count, all in the
    arithmetic of numbers. For durations 10, 20, 30 these are 20, the
    square root of 200/3 (about 8.165), 10, 30 and 3. *)
Theorem statistics_aggregator_spec
    (processedData : list ExecutionRecord.t) (jobName : string) :
  let jobs := jobsOf jobName processedData in
  let durations := ExecutionRecord.duration <$> jobs in
  (Forall (fun r => ExecutionRecord.jobName r ∉ Utils.Object_prototype)
          processedData ->
   exists statistics,
     DataProcessor.calculateStatistics processedData = Ok statistics)
  /\ forall statistics,
       DataProcessor.calculateStatistics processedData = Ok statistics ->
       jobs <> [] ->
       exists entry,
         statistics !! jobName = Some entry
         /\ Utils.calculateStats durations = Some (DataProcessor.basicStats entry)
         /\ Utils.mean (DataProcessor.basicStats entry) = arithmeticMean durations
         /\ Utils.std (DataProcessor.basicStats entry) = populationStdDev durations
         /\ isMinimumOf (Utils.min (DataProcessor.basicStats entry)) durations
         /\ isMaximumOf (Utils.max (DataProcessor.basicStats entry)) durations
         /\ Utils.count (DataProcessor.basicStats entry) = length durations
         /\ (durations = [10; 20; 30]%R ->
             Utils.mean (DataProcessor.basicStats entry) = 20%R
             /\ Utils.std (DataProcessor.basicStats entry)
                = Binary64.sqrt (Binary64.div 200 3)
             /\ (8164 / 1000 <= Utils.std (DataProcessor.basicStats entry)
                 <= 8166 / 1000)%R
             /\ Utils.min (DataProcessor.basicStats entry) = 10%R
             /\ Utils.max (DataProcessor.basicStats entry) = 30%R
             /\ Utils.count (DataProcessor.basicStats entry) = 3).
Proof.
  intros jobs durations. split; [apply calculateStatistics_Ok|].
  intros statistics Hok Hjobs.
  pose proof (calculateStatistics_entries _ _ Hok jobName) as Hentries.
  fold jobs in Hentries.
  destruct jobs as [|job jobs'] eqn:Ejobs; [done|].
  destruct Hentries as (entry & Hlookup & Hgroup).
  exists entry. split; [done|].
  unfold DataProcessor.statisticsOfGroup in Hgroup. fold durations in Hgroup.
  destruct (Utils.calculateStats durations) as [stats|] eqn:Hstats; [|done].
  injection Hgroup as <-. cbn [DataProcessor.basicStats].
  split; [done|].
  destruct (calculateStats_spec _ _ Hstats) as (Hmean & Hstd & Hmin & Hmax & Hcount).
  repeat (split; [done|]).
  intros Hdurations. rewrite Hdurations, calculateStats_10_20_30 in Hstats.
  injection Hstats as <-. cbn [Utils.mean Utils.std Utils.min Utils.max Utils.count].
  repeat (split; [done|]). split; [apply sqrt_200_3_bounds|done].
Qed.

Lemma statistics_aggregator_spec_witness :
  exists statistics entry,
    DataProcessor.calculateStatistics Samples.records = Ok statistics
    /\ statistics !! "backup" = Some entry
    /\ Utils.mean (DataProcessor.basicStats entry) = 20%R
    /\ Utils.std (DataProcessor.basicStats entry)
       = Binary64.sqrt (Binary64.div 200 3)
    /\ Utils.min (DataProcessor.basicStats entry) = 10%R
    /\ Utils.max (DataProcessor.basicStats entry) = 30%R
    /\ Utils.count (DataProcessor.basicStats entry) = 3.
Proof.
  destruct (statistics_aggregator_spec Samples.records "backup")
    as [Hreturns Hentries].
  destruct (Hreturns Samples_records_names) as [statistics Hok].
  destruct (Hentries statistics Hok ltac:(by vm_compute))
    as (entry & Hlookup & _ & _ & _ & _ & _ & _ & Hexample).
  exists statistics, entry. split; [exact Hok|]. split; [exact Hlookup|].
  destruct (Hexample eq_refl) as (Hmean & Hstd & _ & Hmin & Hmax & Hcount).
  repeat split; assumption.
Defined.


(** The failing input of C10: two runs of a job named constructor among
    the sample records. Neither the statistics nor the overdue analysis
    is made, for any job. *)
Lemma job_named_constructor_has_no_entry :
  let data := Samples.run "constructor" "agent-1" 1710498600000 10
              :: Samples.records in
  "constructor" ∈ ExecutionRecord.jobName <$> data
  /\ DataProcessor.calculateStatistics data
     = Throw (TypeError "group.push is not a function")
  /\ ExportManager.calculateOverdueAnalysis data
     = Throw (TypeError "group.push is not a function").
Proof.
  intros data. split; [left|].
  assert (Exists (fun r => ExecutionRecord.jobName r ∈ Utils.Object_prototype)
                 data) as Hex by (apply Exists_cons_hd; left).
  split; [by apply calculateStatistics_Throw|by apply calculateOverdueAnalysis_Throw].
Qed.

(** ** The Overdue Classifier *)

(** A threshold that adds a standard deviation of 0 is the mean. *)
Lemma threshold_of_constant (values : list R) :
  populationStdDev values = 0%R ->
  Binary64.add (arithmeticMean values)
               (Binary64.mul (populationStdDev values)
                             CONFIG.ANALYSIS.OVERDUE_THRESHOLD)
  = arithmeticMean values.
Proof.
  intros ->. unfold Binary64.mul, Binary64.add. rewrite Rmult_0_l, round_0.
  rewrite Rplus_0_r. apply round_div.
Qed.

(** C2. [calculateOverdueAnalysis] returns whenever no job is named
    like a member of [Object.prototype]. In the analysis it returns, the
    entry of every job that has records counts as overdue exactly the
    executions whose duration is strictly greater than the threshold,
    which is the arithmetic mean of the durations of the job plus the
    configured multiple of their population standard deviation; an
    execution at the threshold is not overdue. The percentage is that
    count over the number of executions, times 100. When the standard
    deviation is 0 the threshold is the mean. All of this is in the
    arithmetic of numbers. *)
Theorem overdue_classifier_spec (data : list ExecutionRecord.t) (job : string) :
  let jobs := jobsOf job data in
  let durations := ExecutionRecord.duration <$> jobs in
  let threshold :=
    Binary64.add (arithmeticMean durations)
                 (Binary64.mul (populationStdDev durations)
                               CONFIG.ANALYSIS.OVERDUE_THRESHOLD) in
  (Forall (fun r => ExecutionRecord.jobName r ∉ Utils.Object_prototype) data ->
   exists analysis, ExportManager.calculateOverdueAnalysis data = Ok analysis)
  /\ forall analysis,
       ExportManager.calculateOverdueAnalysis data = Ok analysis ->
       jobs <> [] ->
       exists entry overdue others,
         analysis !! job = Some entry
         /\ overdue
            = filter (fun j => (threshold < ExecutionRecord.duration j)%R) jobs
         /\ others
            = filter (fun j => ~ (threshold < ExecutionRecord.duration j)%R) jobs
         /\ jobs ≡ₚ overdue ++ others
         /\ Forall (fun j => (threshold < ExecutionRecord.duration j)%R) overdue
         /\ Forall (fun j => (ExecutionRecord.duration j <= threshold)%R) others
         /\ ExportManager.overdueCount entry = length overdue
         /\ ExportManager.totalExecutions entry = length jobs
         /\ 0 < ExportManager.totalExecutions entry
         /\ ExportManager.overduePercentage entry
            = Binary64.mul
                (Binary64.div (INR (ExportManager.overdueCount entry))
                              (INR (ExportManager.totalExecutions entry)))
                100
         /\ (populationStdDev durations = 0%R ->
             threshold = arithmeticMean durations).
Proof.
  intros jobs durations threshold. split; [apply calculateOverdueAnalysis_Ok|].
  intros analysis Hok Hjobs.
  pose proof (calculateOverdueAnalysis_entries _ _ Hok job) as Hentries.
  fold jobs in Hentries.
  assert (exists entry, analysis !! job = Some entry
                        /\ ExportManager.overdueOfGroup jobs = Ok entry)
    as (entry & Hlookup & Hgroup) by (by destruct jobs).
  assert (0 < length jobs) as Hlen by (destruct jobs; [done|cbn; lia]).
  subst threshold durations. clearbody jobs.
  unfold ExportManager.overdueOfGroup in Hgroup.
  destruct (Utils.calculateStats (ExecutionRecord.duration <$> jobs))
    as [stats|] eqn:Hstats; [|done].
  destruct (calculateStats_spec _ _ Hstats) as (Hmean & Hstd & _).
  unfold ExportManager.thresholdOf in Hgroup. rewrite Hmean, Hstd in Hgroup.
  injection Hgroup as Hentry.
  eexists entry, _, _. split; [exact Hlookup|].
  split; [reflexivity|]. split; [reflexivity|]. rewrite <- Hentry.
  cbn [ExportManager.overdueCount ExportManager.totalExecutions
       ExportManager.overduePercentage].
  split; [by rewrite filter_app_complement|].
  split; [apply Forall_forall; by intros j [Hj _]%list_elem_of_filter|].
  split; [apply Forall_forall; intros j [Hj _]%list_elem_of_filter; lra|].
  repeat (split; [done|]). apply threshold_of_constant.
Qed.

(** The job of the samples with runs of 10, 20 and 30 minutes: the
    threshold is 20 plus the square root of 200/3, about 28.165, so the
    run of 30 minutes is the only overdue one. *)
Lemma overdue_classifier_spec_witness :
  exists analysis entry,
    ExportManager.calculateOverdueAnalysis Samples.records = Ok analysis
    /\ analysis !! "backup" = Some entry
    /\ ExportManager.overdueCount entry = 1
    /\ ExportManager.totalExecutions entry = 3
    /\ ExportManager.overduePercentage entry
       = Binary64.mul (Binary64.div 1 3) 100.
Proof.
  destruct (overdue_classifier_spec Samples.records "backup")
    as [Hreturns Hentries].
  destruct (Hreturns Samples_records_names) as [analysis Hok].
  destruct (Hentries analysis Hok ltac:(by vm_compute))
    as (entry & overdue & others & Hlookup & Hoverdue & _ & _ & _ & _
        & Hcount & Htotal & _ & Hpercent & _).
  exists analysis, entry. split; [exact Hok|]. split; [exact Hlookup|].
  assert (jobsOf "backup" Samples.records
          = [Samples.run "backup" "agent-1" 1710498600000 10;
             Samples.run "backup" "agent-1" 1710585000000 20;
             Samples.run "backup" "agent-2" 1710671400000 30]) as Hjobs
    by reflexivity.
  rewrite Hjobs in Hoverdue, Htotal.
  cbn [fmap list_fmap Samples.run ExecutionRecord.duration] in Hoverdue.
  rewrite arithmeticMean_10_20_30, populationStdDev_10_20_30 in Hoverdue.
  pose proof sqrt_200_3_bounds as Hstd.
  assert (28 <= Binary64.add 20 (Binary64.mul (Binary64.sqrt (Binary64.div 200 3))
                                   CONFIG.ANALYSIS.OVERDUE_THRESHOLD) <= 29)%R
    as Hthreshold.
  { unfold Binary64.mul, CONFIG.ANALYSIS.OVERDUE_THRESHOLD.
    rewrite Rmult_1_r, round_sqrt.
    unfold Binary64.add. apply round_between; lra. }
  rewrite !filter_cons, filter_nil in Hoverdue.
  cbn [Samples.run ExecutionRecord.duration] in Hoverdue.
  rewrite (decide_False (P := (_ < 10)%R)) in Hoverdue by lra.
  rewrite (decide_False (P := (_ < 20)%R)) in Hoverdue by lra.
  rewrite (decide_True (P := (_ < 30)%R)) in Hoverdue by lra.
  rewrite Hoverdue in Hcount. cbn [length] in Hcount, Htotal.
  rewrite Hpercent, Hcount, Htotal. repeat split.
  by rewrite !INR_IZR_INZ.
Defined.

(** ** The Row Normalizer *)

Lemma duration_negative (startDate endDate : Z) :
  (IZR (endDate - startDate) / (1000 * 60) < 0)%R <-> (endDate < startDate)%Z.
Proof.
  split.
  - intros Hneg. assert (IZR (endDate - startDate) < 0)%R as Hlt.
    { apply Rmult_lt_reg_r with (r := (/ (1000 * 60))%R); [lra|].
      unfold Rdiv in Hneg. lra. }
    apply lt_IZR in Hlt. lia.
  - intros Hlt. assert (IZR (endDate - startDate) < 0)%R as Hneg
      by (apply IZR_lt; lia).
    unfold Rdiv. apply Rmult_lt_reg_r with (r := (1000 * 60)%R); [lra|].
    rewrite Rmult_assoc, Rinv_l by lra. lra.
Qed.

Section RowNormalizer.
Context `{Platform}.

Lemma processRow_Some (row : RawRow.t) (startDate endDate : Z) :
  DataProcessor.parseDateTime (RawRow.startDateTime row) = Some startDate ->
  DataProcessor.parseDateTime (RawRow.endDateTime row) = Some endDate ->
  (startDate <= endDate)%Z ->
  DataProcessor.processRow row = Some (recordOf row startDate endDate).
Proof.
  intros Hs He Hle. unfold DataProcessor.processRow. rewrite Hs, He.
  destruct (decide _) as [Hneg|_]; [|done].
  apply duration_negative in Hneg. lia.
Qed.

Lemma processRow_backwards (row : RawRow.t) (startDate endDate : Z) :
  DataProcessor.parseDateTime (RawRow.startDateTime row) = Some startDate ->
  DataProcessor.parseDateTime (RawRow.endDateTime row) = Some endDate ->
  (endDate < startDate)%Z ->
  DataProcessor.processRow row = None.
Proof.
  intros Hs He Hlt. unfold DataProcessor.processRow. rewrite Hs, He.
  destruct (decide _) as [_|Hnneg]; [done|].
  exfalso. apply Hnneg, duration_negative, Hlt.
Qed.

Lemma processRow_Some_inv (row : RawRow.t) (r : ExecutionRecord.t) :
  DataProcessor.processRow row = Some r ->
  exists startDate endDate,
    DataProcessor.parseDateTime (RawRow.startDateTime row) = Some startDate
    /\ DataProcessor.parseDateTime (RawRow.endDateTime row) = Some endDate
    /\ (startDate <= endDate)%Z
    /\ r = recordOf row startDate endDate.
Proof.
  unfold DataProcessor.processRow.
  destruct (DataProcessor.parseDateTime (RawRow.startDateTime row))
    as [startDate|]; [|done].
  destruct (DataProcessor.parseDateTime (RawRow.endDateTime row))
    as [endDate|]; [|done].
  destruct (decide _) as [|Hnneg]; [done|]. intros [= <-].
  exists startDate, endDate. repeat split; try done.
  destruct (Z_lt_le_dec endDate startDate) as [Hlt|Hle]; [|done].
  exfalso. apply Hnneg, duration_negative, Hlt.
Qed.

Lemma processFileData_Ok (data : list RawRow.t) :
  data <> [] ->
  DataProcessor.processFileData data = Ok (omap DataProcessor.processRow data).
Proof. by destruct data. Qed.

Lemma processFileData_Ok_inv (data : list RawRow.t) out :
  DataProcessor.processFileData data = Ok out ->
  data <> [] /\ out = omap DataProcessor.processRow data.
Proof. destruct data; [done|]. by intros [= <-]. Qed.
End RowNormalizer.

Section RowNormalizerClaims.
Context `{Platform}.


(** C5. A row whose start or end is not a date, or whose duration
    would be negative, is dropped: [processRow] returns [null] for
    it, and [processFileData] does not throw and returns the records of
    the rows before it followed by those of the rows after it. Every
    other row that is valid, that is, whose start and end are dates
    with the end not before the start, has its record in the output;
    and the output holds the records of such rows only. *)
Theorem invalid_row_is_dropped (before after : list RawRow.t) (row : RawRow.t) :
  DataProcessor.parseDateTime (RawRow.startDateTime row) = None
  \/ DataProcessor.parseDateTime (RawRow.endDateTime row) = None
  \/ (exists startDate endDate,
        DataProcessor.parseDateTime (RawRow.startDateTime row) = Some startDate
        /\ DataProcessor.parseDateTime (RawRow.endDateTime row) = Some endDate
        /\ (IZR (endDate - startDate) / (1000 * 60) < 0)%R) ->
  DataProcessor.processRow row = None
  /\ exists out,
       DataProcessor.processFileData (before ++ row :: after) = Ok out
       /\ out = omap DataProcessor.processRow before
                ++ omap DataProcessor.processRow after
       /\ (forall other startDate endDate,
             other ∈ before ++ after ->
             DataProcessor.parseDateTime (RawRow.startDateTime other)
             = Some startDate ->
             DataProcessor.parseDateTime (RawRow.endDateTime other)
             = Some endDate ->
             (startDate <= endDate)%Z ->
             recordOf other startDate endDate ∈ out)
       /\ (forall r, r ∈ out ->
             exists other startDate endDate,
               other ∈ before ++ after
               /\ DataProcessor.parseDateTime (RawRow.startDateTime other)
                  = Some startDate
               /\ DataProcessor.parseDateTime (RawRow.endDateTime other)
                  = Some endDate
               /\ (startDate <= endDate)%Z
               /\ r = recordOf other startDate endDate).
Proof.
  intros Hinvalid.
  assert (DataProcessor.processRow row = None) as Hrow.
  { destruct Hinvalid as [Hs|[He|(startDate & endDate & Hs & He & Hneg)]].
    - unfold DataProcessor.processRow. by rewrite Hs.
    - unfold DataProcessor.processRow. rewrite He.
      by destruct (DataProcessor.parseDateTime (RawRow.startDateTime row)).
    - eapply processRow_backwards; [done..|]. by apply duration_negative. }
  split; [done|]. eexists. split; [|split; [reflexivity|split]].
  - rewrite processFileData_Ok by (by destruct before).
    rewrite omap_app. cbn. by rewrite Hrow.
  - intros other startDate endDate Hin Hs He Hle. rewrite <- omap_app.
    apply list_elem_of_omap. exists other. split; [done|].
    by apply processRow_Some.
  - intros r Hr. rewrite <- omap_app in Hr.
    apply list_elem_of_omap in Hr as (other & Hin & Hother).
    apply processRow_Some_inv in Hother
      as (startDate & endDate & Hs & He & Hle & ->).
    by exists other, startDate, endDate.
Qed.
End RowNormalizerClaims.

(** The sample rows on the reference platform. *)
Example parse_goodRow1_start :
  @DataProcessor.parseDateTime ReferencePlatform.platform
    (RawRow.startDateTime Samples.goodRow1) = Some 1710498600000%Z.
Proof. vm_compute. reflexivity. Qed.
Example parse_goodRow1_end :
  @DataProcessor.parseDateTime ReferencePlatform.platform
    (RawRow.endDateTime Samples.goodRow1) = Some 1710499200000%Z.
Proof. vm_compute. reflexivity. Qed.
Example parse_badEndRow_end :
  @DataProcessor.parseDateTime ReferencePlatform.platform
    (RawRow.endDateTime Samples.badEndRow) = None.
Proof. vm_compute. reflexivity. Qed.


Example parse_goodRow2_start :
  @DataProcessor.parseDateTime ReferencePlatform.platform
    (RawRow.startDateTime Samples.goodRow2) = Some 1710576000000%Z.
Proof. vm_compute. reflexivity. Qed.
Example parse_goodRow2_end :
  @DataProcessor.parseDateTime ReferencePlatform.platform
    (RawRow.endDateTime Samples.goodRow2) = Some 1710578700000%Z.
Proof. vm_compute. reflexivity. Qed.

Lemma invalid_row_is_dropped_witness :
  @DataProcessor.parseDateTime ReferencePlatform.platform
    (RawRow.endDateTime Samples.badEndRow) = None
  /\ @DataProcessor.processRow ReferencePlatform.platform Samples.badEndRow = None
  /\ exists out,
       @DataProcessor.processFileData ReferencePlatform.platform
         [Samples.goodRow1; Samples.badEndRow; Samples.goodRow2] = Ok out
       /\ @recordOf ReferencePlatform.platform Samples.goodRow1
            1710498600000 1710499200000 ∈ out
       /\ @recordOf ReferencePlatform.platform Samples.goodRow2
            1710576000000 1710578700000 ∈ out.
Proof.
  split; [exact parse_badEndRow_end|].
  destruct (@invalid_row_is_dropped ReferencePlatform.platform
              [Samples.goodRow1] [Samples.goodRow2] Samples.badEndRow)
    as (Hrow & out & Hout & _ & Hkept & _).
  { right. left. exact parse_badEndRow_end. }
  split; [exact Hrow|]. exists out. split; [exact Hout|]. split.
  - apply (Hkept Samples.goodRow1);
      [left|exact parse_goodRow1_start|exact parse_goodRow1_end|lia].
  - apply (Hkept Samples.goodRow2);
      [right; left|exact parse_goodRow2_start|exact parse_goodRow2_end|lia].
Defined.

(** ** The Date Parser *)

Section DateParser.
Context `{Platform}.

(** The text the formats of [parseDateTime] work on. *)
Lemma parseDateTime_Text (s : string) :
  s <> "" ->
  let strValue :=
    JsString.collapseSpaces (JsString.removeCommas (JsString.trim s)) in
  DataProcessor.parseDateTime (Text s)
  = match Date_parse strValue with
    | Some date => Some date
    | None =>
        DataProcessor.tryFormats
          (drop 1 [ (fun _ => Date_parse strValue);
                    (fun _ =>
                       match JsString.split " " strValue !! 0%nat with
                       | None | Some EmptyString => None
                       | Some datePart =>
                           let dmy := JsString.split "/" datePart in
                           match JsString.split " " strValue !! 1%nat with
                           | None | Some EmptyString =>
                               Date_parse (tpl (dmy !! 2%nat) +:+ "-"
                                 +:+ tpl (dmy !! 1%nat) +:+ "-"
                                 +:+ tpl (dmy !! 0%nat))
                           | Some timePart =>
                               Date_parse (tpl (dmy !! 2%nat) +:+ "-"
                                 +:+ tpl (dmy !! 1%nat) +:+ "-"
                                 +:+ tpl (dmy !! 0%nat) +:+ " " +:+ timePart)
                           end
                       end);
                    (fun _ => Date_parse (JsString.replaceSlashDate strValue)) ])
    end.
Proof.
  intros Hs. unfold DataProcessor.parseDateTime. cbn [truthy toString].
  destruct (String.eqb_spec s ""); [done|]. reflexivity.
Qed.

(** The direct reading of the text wins whenever it is valid. *)
Lemma parseDateTime_first_format (s : string) (date : Z) :
  s <> "" ->
  Date_parse (JsString.collapseSpaces
                (JsString.removeCommas (JsString.trim s))) = Some date ->
  DataProcessor.parseDateTime (Text s) = Some date.
Proof.
  intros Hs Hdate. rewrite parseDateTime_Text by done.
  cbv zeta. by rewrite Hdate.
Qed.

(** C7. On a browser that reads the ISO text, with T or with a space,
    as one instant, and that rejects the day-first text and the texts
    without digits, [parseDateTime] maps the day-first text and the
    ISO text of 15 March 2024, 10:30:00 to that same instant, and maps
    the empty string and the text not-a-date to [null]. It returns a
    value in every case, and the direct reading of the text, first of
    the formats, wins whenever it is valid. *)
Theorem date_parser_examples (instant : Z) :
  Date_parse "2024-03-15T10:30:00" = Some instant ->
  Date_parse "2024-03-15 10:30:00" = Some instant ->
  Date_parse "15/03/2024 10:30:00" = None ->
  Date_parse "not-a-date" = None ->
  Date_parse "undefined-undefined-not-a-date" = None ->
  DataProcessor.parseDateTime (Text "15/03/2024 10:30:00") = Some instant
  /\ DataProcessor.parseDateTime (Text "2024-03-15T10:30:00") = Some instant
  /\ DataProcessor.parseDateTime (Text "") = None
  /\ DataProcessor.parseDateTime (Text "not-a-date") = None
  /\ (forall s date,
        s <> "" ->
        Date_parse (JsString.collapseSpaces
                      (JsString.removeCommas (JsString.trim s))) = Some date ->
        DataProcessor.parseDateTime (Text s) = Some date).
Proof.
  intros Hiso Hspace Hdmy Hnad Hund.
  split; [|split; [|split; [|split]]]; [| | | |apply parseDateTime_first_format].
  - rewrite parseDateTime_Text by done. cbv zeta.
    replace (JsString.collapseSpaces _) with "15/03/2024 10:30:00"
      by (vm_compute; reflexivity).
    rewrite Hdmy. cbn [drop DataProcessor.tryFormats].
    replace (JsString.split " " _) with ["15/03/2024"; "10:30:00"]
      by (vm_compute; reflexivity).
    cbn [lookup list_lookup].
    replace (JsString.split "/" _) with ["15"; "03"; "2024"]
      by (vm_compute; reflexivity).
    cbn [tpl default lookup list_lookup]. cbv [String.append Datatypes.id].
    by rewrite Hspace.
  - apply parseDateTime_first_format; [done|].
    replace (JsString.collapseSpaces _) with "2024-03-15T10:30:00"
      by (vm_compute; reflexivity).
    exact Hiso.
  - reflexivity.
  - rewrite parseDateTime_Text by done. cbv zeta.
    replace (JsString.collapseSpaces _) with "not-a-date"
      by (vm_compute; reflexivity).
    rewrite Hnad. cbn [drop DataProcessor.tryFormats].
    replace (JsString.split " " _) with ["not-a-date"]
      by (vm_compute; reflexivity).
    cbn [lookup list_lookup].
    replace (JsString.split "/" _) with ["not-a-date"]
      by (vm_compute; reflexivity).
    cbn [tpl default lookup list_lookup]. cbv [String.append Datatypes.id].
    rewrite Hund.
    replace (JsString.replaceSlashDate _) with "not-a-date"
      by (vm_compute; reflexivity).
    by rewrite Hnad.
Qed.
End DateParser.

Lemma date_parser_examples_witness :
  @DataProcessor.parseDateTime ReferencePlatform.platform
    (Text "15/03/2024 10:30:00") = Some 1710498600000%Z
  /\ @DataProcessor.parseDateTime ReferencePlatform.platform
       (Text "2024-03-15T10:30:00") = Some 1710498600000%Z
  /\ @DataProcessor.parseDateTime ReferencePlatform.platform (Text "") = None
  /\ @DataProcessor.parseDateTime ReferencePlatform.platform (Text "not-a-date")
     = None.
Proof.
  destruct (@date_parser_examples ReferencePlatform.platform 1710498600000%Z)
    as (Hdmy & Hiso & Hempty & Hnad & _);
    [vm_compute; reflexivity..|].
  repeat split; assumption.
Defined.

(** ** Batches of files *)

Section Batches.
Context `{Platform}.

Lemma contributionOf_Ok (file : File) (out : list ExecutionRecord.t) :
  contributionOf file = Ok out <->
  exists rows, DataProcessor.readFile file = Ok rows /\ rows <> []
               /\ out = omap DataProcessor.processRow rows.
Proof.
  split.
  - destruct (DataProcessor.readFile file) as [rows|e] eqn:Hread; [|done].
    cbn. intros [Hne ->]%processFileData_Ok_inv. by exists rows.
  - intros (rows & -> & Hne & ->). cbn. by apply processFileData_Ok.
Qed.

(** The loop over files whose contributions all exist appends them in
    the order of the files. *)
Lemma processFiles_loop_Ok (files : list File) perFile (this : DataProcessor.State) :
  Forall2 (fun file out => contributionOf file = Ok out) files perFile ->
  DataProcessor.processFiles_loop files this
  = (Ok tt,
     {| DataProcessor.rawData := DataProcessor.rawData this;
        DataProcessor.processedData :=
          DataProcessor.processedData this ++ concat perFile;
        DataProcessor.statistics := DataProcessor.statistics this |}).
Proof.
  intros Hall. revert this.
  induction Hall as [|file out files perFile Hout _ IH]; intros this.
  - cbn. rewrite app_nil_r. by destruct this.
  - cbn [DataProcessor.processFiles_loop]. rewrite Hout, IH. cbn.
    by rewrite app_assoc.
Qed.


(** The loop stops with an error when a file has no contribution. *)
Lemma processFiles_loop_Throw (files : list File) (file : File) e
    (this : DataProcessor.State) :
  file ∈ files -> contributionOf file = Throw e ->
  exists e', (DataProcessor.processFiles_loop files this).1 = Throw e'.
Proof.
  intros Hin Hfile. revert this.
  induction files as [|file' files IH]; intros this;
    [by apply not_elem_of_nil in Hin|].
  cbn [DataProcessor.processFiles_loop].
  destruct (contributionOf file') as [out|e'] eqn:Hout; [|by exists e'].
  apply elem_of_cons in Hin as [->|Hin]; [congruence|]. by apply IH.
Qed.

(** A batch whose files all have a contribution comes to the statistics
    with the concatenation of the contributions, and then succeeds or
    fails as the statistics do. *)
Lemma processFiles_contributions (files : list File) perFile
    (this : DataProcessor.State) :
  Forall2 (fun file out => contributionOf file = Ok out) files perFile ->
  DataProcessor.processFiles files this
  = match DataProcessor.calculateStatistics (concat perFile) with
    | Ok statistics =>
        (Ok (concat perFile),
         {| DataProcessor.rawData := [];
            DataProcessor.processedData := concat perFile;
            DataProcessor.statistics := statistics |})
    | Throw error =>
        (Throw (ProcessingError "Erro no processamento de arquivos" (Some error)),
         {| DataProcessor.rawData := [];
            DataProcessor.processedData := concat perFile;
            DataProcessor.statistics := ∅ |})
    end.
Proof.
  intros Hall. unfold DataProcessor.processFiles.
  rewrite (processFiles_loop_Ok _ _ _ Hall). reflexivity.
Qed.

Lemma processFiles_Ok (files : list File) perFile (this : DataProcessor.State) :
  Forall2 (fun file out => contributionOf file = Ok out) files perFile ->
  Forall (fun r => ExecutionRecord.jobName r ∉ Utils.Object_prototype)
         (concat perFile) ->
  exists statistics,
    DataProcessor.calculateStatistics (concat perFile) = Ok statistics
    /\ DataProcessor.processFiles files this
       = (Ok (concat perFile),
          {| DataProcessor.rawData := [];
             DataProcessor.processedData := concat perFile;
             DataProcessor.statistics := statistics |}).
Proof.
  intros Hall Hnames.
  destruct (calculateStatistics_Ok (concat perFile) Hnames) as (statistics & Hstats).
  exists statistics. split; [done|].
  by rewrite (processFiles_contributions _ _ _ Hall), Hstats.
Qed.

(** A batch with a file that has no contribution is rejected as a
    whole, with a [ProcessingError]. *)
Lemma processFiles_Throw (files : list File) (file : File) e
    (this : DataProcessor.State) :
  file ∈ files -> contributionOf file = Throw e ->
  exists e',
    (DataProcessor.processFiles files this).1
    = Throw (ProcessingError "Erro no processamento de arquivos" (Some e')).
Proof.
  intros Hin Hfile. unfold DataProcessor.processFiles.
  destruct (processFiles_loop_Throw files file e (DataProcessor.reset this) Hin Hfile)
    as [e' He'].
  destruct (DataProcessor.processFiles_loop files (DataProcessor.reset this))
    as [[u|e''] this']; cbn in *; [done|]. by exists e''.
Qed.


(** The records of a file are those of its surviving rows, row by
    row in the order of the rows. *)
Lemma omap_processRow_order (rows : list RawRow.t) :
  Forall2 (fun row r => DataProcessor.processRow row = Some r)
          (filter (fun row => is_Some (DataProcessor.processRow row)) rows)
          (omap DataProcessor.processRow rows).
Proof.
  induction rows as [|row rows IH]; [constructor|].
  rewrite filter_cons. cbn [omap list_omap].
  destruct (DataProcessor.processRow row) as [r|] eqn:Hrow.
  - rewrite decide_True by (by eexists). by constructor.
  - rewrite decide_False by (by intros [? ?]). done.
Qed.
End Batches.

Section BatchClaims.
Context `{Platform}.

(** C8. For a batch whose files are all read and have rows,
    [processFiles] leaves in the processor the concatenation, in the
    order of the files, of the records of each file; the records of a
    file are those of its surviving rows, in the order of the rows.
    Whenever [processFiles] returns, it returns that sequence; and it
    returns whenever no record has a job named like a member of
    [Object.prototype]. *)
Theorem batch_output_order (files : list File) (this : DataProcessor.State) :
  Forall (fun file => exists rows,
            DataProcessor.readFile file = Ok rows /\ rows <> []) files ->
  exists perFile : list (list ExecutionRecord.t),
    Forall2 (fun file records => exists rows kept,
               DataProcessor.readFile file = Ok rows
               /\ kept = filter (fun row =>
                                  is_Some (DataProcessor.processRow row)) rows
               /\ kept `sublist_of` rows
               /\ Forall2 (fun row r => DataProcessor.processRow row = Some r)
                          kept records)
            files perFile
    /\ DataProcessor.processedData (DataProcessor.processFiles files this).2
       = concat perFile
    /\ (forall out,
          (DataProcessor.processFiles files this).1 = Ok out ->
          out = concat perFile)
    /\ (Forall (fun r => ExecutionRecord.jobName r ∉ Utils.Object_prototype)
               (concat perFile) ->
        (DataProcessor.processFiles files this).1 = Ok (concat perFile)).
Proof.
  intros Hfiles.
  assert (exists perFile,
    Forall2 (fun file out => contributionOf file = Ok out) files perFile
    /\ Forall2 (fun file records => exists rows kept,
                  DataProcessor.readFile file = Ok rows
                  /\ kept = filter (fun row =>
                                     is_Some (DataProcessor.processRow row)) rows
                  /\ kept `sublist_of` rows
                  /\ Forall2 (fun row r => DataProcessor.processRow row = Some r)
                             kept records)
               files perFile) as (perFile & Hcontrib & Hshape).
  { induction Hfiles as [|file files (rows & Hread & Hne) _ (perFile & Hc & Hs)].
    - exists []. split; constructor.
    - exists (omap DataProcessor.processRow rows :: perFile). split.
      + constructor; [|done]. apply contributionOf_Ok. by exists rows.
      + constructor; [|done]. eexists rows, _. split; [done|].
        split; [reflexivity|]. split; [apply sublist_filter|].
        apply omap_processRow_order. }
  exists perFile. split; [exact Hshape|].
  rewrite (processFiles_contributions files perFile this Hcontrib).
  split; [|split].
  - by destruct (DataProcessor.calculateStatistics (concat perFile)).
  - destruct (DataProcessor.calculateStatistics (concat perFile)); [|done].
    by intros out [= <-].
  - intros Hnames.
    by destruct (calculateStatistics_Ok (concat perFile) Hnames) as [statistics ->].
Qed.

(** C9. Whatever the processor held, processing a batch, resetting,
    and processing the same batch again gives the same result and the
    same processor: the same records and the same statistics. A reset
    processor is a new one. *)
Theorem reprocessing_after_reset (files : list File) (this : DataProcessor.State) :
  let first := DataProcessor.processFiles files this in
  let second := DataProcessor.processFiles files (DataProcessor.reset first.2) in
  DataProcessor.reset first.2 = DataProcessor.new
  /\ second.1 = first.1
  /\ DataProcessor.processedData second.2 = DataProcessor.processedData first.2
  /\ DataProcessor.statistics second.2 = DataProcessor.statistics first.2
  /\ second = first.
Proof. cbv zeta. repeat split. Qed.
End BatchClaims.

(** The records of the sample sheet on the reference platform: the two
    rows with valid dates, whose jobs are backup and report. *)
Lemma Samples_sheet_records :
  omap (@DataProcessor.processRow ReferencePlatform.platform)
       [Samples.goodRow1; Samples.badEndRow; Samples.goodRow2]
  = [@recordOf ReferencePlatform.platform Samples.goodRow1
       1710498600000 1710499200000;
     @recordOf ReferencePlatform.platform Samples.goodRow2
       1710576000000 1710578700000].
Proof.
  pose proof (@processRow_Some ReferencePlatform.platform Samples.goodRow1 _ _
                parse_goodRow1_start parse_goodRow1_end ltac:(lia)) as Hrow1.
  assert (@DataProcessor.processRow ReferencePlatform.platform Samples.goodRow2
          = Some (@recordOf ReferencePlatform.platform Samples.goodRow2
                    1710576000000 1710578700000)) as Hrow2
    by (apply processRow_Some; [vm_compute; reflexivity..|lia]).
  assert (@DataProcessor.processRow ReferencePlatform.platform Samples.badEndRow
          = None) as Hrow by (vm_compute; reflexivity).
  cbn [omap list_omap]. by rewrite Hrow1, Hrow, Hrow2.
Qed.

Lemma Samples_sheet_names (batch : list (list ExecutionRecord.t)) :
  Forall (fun records =>
            records = omap (@DataProcessor.processRow ReferencePlatform.platform)
                           [Samples.goodRow1; Samples.badEndRow; Samples.goodRow2])
         batch ->
  Forall (fun r => ExecutionRecord.jobName r ∉ Utils.Object_prototype)
         (concat batch).
Proof.
  intros Hbatch. apply Forall_concat.
  apply (Forall_impl _ _ _ Hbatch). intros records ->.
  rewrite Samples_sheet_records.
  repeat constructor; cbn [recordOf ExecutionRecord.jobName];
    apply (bool_decide_unpack _); vm_compute; reflexivity.
Qed.

Lemma batch_output_order_witness :
  let files := [Samples.file "a.xlsx" Samples.sheet;
                Samples.file "b.xlsx" Samples.sheetLongHeader] in
  Forall (fun file => exists rows,
            @DataProcessor.readFile ReferencePlatform.platform file = Ok rows
            /\ rows <> []) files
  /\ exists perFile,
       (@DataProcessor.processFiles ReferencePlatform.platform files
          DataProcessor.new).1 = Ok (concat perFile)
       /\ length perFile = 2.
Proof.
  intros files.
  assert (Forall (fun file => exists rows,
            @DataProcessor.readFile ReferencePlatform.platform file = Ok rows
            /\ rows <> []) files) as Hfiles.
  { repeat constructor; eexists; (split; [vm_compute; reflexivity|done]). }
  split; [exact Hfiles|].
  destruct (@batch_output_order ReferencePlatform.platform files
              DataProcessor.new Hfiles) as (perFile & Hshape & _ & Hout & _).
  exists perFile. split; [|symmetry; exact (Forall2_length _ _ _ Hshape)].
  set (records := omap (@DataProcessor.processRow ReferencePlatform.platform)
                       [Samples.goodRow1; Samples.badEndRow; Samples.goodRow2]).
  destruct (@processFiles_Ok ReferencePlatform.platform files [records; records]
              DataProcessor.new) as (statistics & _ & Hrun).
  { repeat constructor; apply contributionOf_Ok;
      exists [Samples.goodRow1; Samples.badEndRow; Samples.goodRow2];
      (split; [vm_compute; reflexivity|]); (split; [discriminate|reflexivity]). }
  { apply Samples_sheet_names. by repeat constructor. }
  rewrite Hrun. cbn [fst]. f_equal. apply Hout. by rewrite Hrun.
Defined.

(** ** Header validation and empty files *)

Section FileLemmas.
Context `{Platform}.

Lemma validateHeaders_from_cases (columns : list CONFIG.EXCEL.ColumnKey)
    (sheet : XLSX.Sheet) :
  (Forall (fun column => headerFound sheet column = true) columns
   /\ DataProcessor.validateHeaders_from
        ((fun column => (column, CONFIG.EXCEL.COLUMNS column)) <$> columns) sheet
      = Ok tt)
  \/ (Exists (fun column => headerFound sheet column = false) columns
      /\ exists message,
           DataProcessor.validateHeaders_from
             ((fun column => (column, CONFIG.EXCEL.COLUMNS column)) <$> columns)
             sheet
           = Throw (ValidationError message None)).
Proof.
  induction columns as [|column columns IH].
  - left. split; [constructor|reflexivity].
  - cbn [fmap list_fmap DataProcessor.validateHeaders_from].
    fold (headerCell sheet column).
    destruct (headerFound sheet column) eqn:Hfound.
    + pose proof Hfound as Hboth.
      unfold headerFound in Hboth. apply andb_prop in Hboth as [-> ->].
      cbn [negb orb].
      destruct IH as [[Hall Hok]|[Hex Hthrow]].
      * left. split; [|exact Hok]. by constructor.
      * right. split; [by apply Exists_cons_tl|exact Hthrow].
    + right. split; [by apply Exists_cons_hd|].
      unfold headerFound in Hfound.
      destruct (truthy (headerCell sheet column)); cbn in Hfound |- *.
      * rewrite Hfound. cbn. by eexists.
      * by eexists.
Qed.

(** Validation passes exactly when each of the four header cells is
    found to include its header. *)
Lemma validateHeaders_Ok (sheet : XLSX.Sheet) :
  DataProcessor.validateHeaders sheet = Ok tt
  <-> forall column, headerFound sheet column = true.
Proof.
  unfold DataProcessor.validateHeaders, CONFIG.EXCEL.COLUMNS_entries.
  destruct (validateHeaders_from_cases
              [CONFIG.EXCEL.JOB_NAME; CONFIG.EXCEL.AGENT_NAME;
               CONFIG.EXCEL.START_DATETIME; CONFIG.EXCEL.END_DATETIME] sheet)
    as [[Hall ->]|[Hex [message ->]]].
  - split; [|done]. intros _ column.
    rewrite Forall_forall in Hall. apply Hall.
    destruct column; repeat (first [left|right]).
  - split; [done|]. intros Hall.
    apply Exists_exists in Hex as (column & _ & Hfalse).
    by rewrite Hall in Hfalse.
Qed.

Lemma validateHeaders_Throw (sheet : XLSX.Sheet) (column : CONFIG.EXCEL.ColumnKey) :
  headerFound sheet column = false ->
  exists message,
    DataProcessor.validateHeaders sheet = Throw (ValidationError message None).
Proof.
  intros Hfalse.
  unfold DataProcessor.validateHeaders, CONFIG.EXCEL.COLUMNS_entries.
  destruct (validateHeaders_from_cases
              [CONFIG.EXCEL.JOB_NAME; CONFIG.EXCEL.AGENT_NAME;
               CONFIG.EXCEL.START_DATETIME; CONFIG.EXCEL.END_DATETIME] sheet)
    as [[Hall _]|[_ Hthrow]]; [|exact Hthrow].
  rewrite Forall_forall in Hall. rewrite Hall in Hfalse; [done|].
  destruct column; repeat (first [left|right]).
Qed.

Lemma readFile_invalid_headers (file : File) (sheet : XLSX.Sheet) e :
  firstSheet file = Some sheet ->
  DataProcessor.validateHeaders sheet = Throw e ->
  DataProcessor.readFile file
  = Throw (FileError ("Erro ao ler arquivo " +:+ name file) (Some e)).
Proof.
  intros Hsheet Hthrow. unfold DataProcessor.readFile.
  rewrite Hsheet. cbv beta iota zeta. by rewrite Hthrow.
Qed.

End FileLemmas.

Section FileClaims.
Context `{Platform}.

(** C3, as the code has it. If one of the four header cells, at row 9
    and at the column letter of the configuration, is missing, falsy,
    or holds a text that does not include the expected header, then
    [validateHeaders] throws a [ValidationError]; [readFile] rejects
    the file with a [FileError] that wraps it, whatever rows the sheet
    holds and without converting the sheet to rows; and every batch
    with that file is rejected with a [ProcessingError], so the file
    contributes no row. *)
Theorem header_validation (sheet : XLSX.Sheet) (column : CONFIG.EXCEL.ColumnKey) :
  truthy (headerCell sheet column) = false
  \/ JsString.includes (toString (headerCell sheet column))
                       (CONFIG.EXCEL.HEADERS column) = false ->
  (exists message,
     DataProcessor.validateHeaders sheet = Throw (ValidationError message None))
  /\ forall file, firstSheet file = Some sheet ->
       (exists message message',
          DataProcessor.readFile file
          = Throw (FileError message (Some (ValidationError message' None))))
       /\ (forall sheet_to_json',
             @DataProcessor.readFile
               (Build_Platform Date_parse Date_toString sheet_to_json') file
             = DataProcessor.readFile file)
       /\ (forall files this, file ∈ files ->
             exists e,
               (DataProcessor.processFiles files this).1
               = Throw (ProcessingError "Erro no processamento de arquivos"
                                        (Some e))).
Proof.
  intros Hcell.
  assert (headerFound sheet column = false) as Hfalse.
  { unfold headerFound. destruct Hcell as [-> | ->]; [done|].
    by rewrite andb_false_r. }
  destruct (validateHeaders_Throw sheet column Hfalse) as [message Hthrow].
  split; [by exists message|].
  intros file Hsheet.
  pose proof (readFile_invalid_headers file sheet _ Hsheet Hthrow) as Hread.
  split; [by eexists _, _|]. split.
  - intros sheet_to_json'. rewrite Hread.
    exact (@readFile_invalid_headers
             (Build_Platform Date_parse Date_toString sheet_to_json')
             file sheet _ Hsheet Hthrow).
  - intros files this Hin.
    eapply processFiles_Throw; [exact Hin|]. by rewrite Hread.
Qed.

(** C4, as the code has it. A file that yields no row at all makes
    [processFileData] throw a [DataError], and every batch with that
    file is rejected with a [ProcessingError]; processed alone, the
    cause of the rejection is that [DataError]. *)
Theorem file_without_rows_is_rejected (file : File) :
  DataProcessor.readFile file = Ok [] ->
  DataProcessor.processFileData []
  = Throw (DataError "Arquivo vazio ou sem dados válidos" None)
  /\ contributionOf file
     = Throw (DataError "Arquivo vazio ou sem dados válidos" None)
  /\ (forall files this, file ∈ files ->
        exists e,
          (DataProcessor.processFiles files this).1
          = Throw (ProcessingError "Erro no processamento de arquivos" (Some e)))
  /\ (forall this,
        DataProcessor.processFiles [file] this
        = (Throw (ProcessingError "Erro no processamento de arquivos"
                    (Some (DataError "Arquivo vazio ou sem dados válidos" None))),
           DataProcessor.new)).
Proof.
  intros Hread.
  assert (contributionOf file
          = Throw (DataError "Arquivo vazio ou sem dados válidos" None))
    as Hfile by (by rewrite Hread).
  split; [done|]. split; [done|]. split.
  - intros files this Hin. by eapply processFiles_Throw.
  - intros this. unfold DataProcessor.processFiles.
    cbn [DataProcessor.processFiles_loop]. by rewrite Hfile.
Qed.
End FileClaims.

Lemma header_validation_witness :
  let file := Samples.file "wrong.xlsx" Samples.sheetWrongHeader in
  JsString.includes
    (@toString ReferencePlatform.platform
       (headerCell Samples.sheetWrongHeader CONFIG.EXCEL.JOB_NAME))
    (CONFIG.EXCEL.HEADERS CONFIG.EXCEL.JOB_NAME) = false
  /\ (exists message,
        @DataProcessor.validateHeaders ReferencePlatform.platform
          Samples.sheetWrongHeader = Throw (ValidationError message None))
  /\ exists e,
       (@DataProcessor.processFiles ReferencePlatform.platform
          [Samples.file "a.xlsx" Samples.sheet; file] DataProcessor.new).1
       = Throw (ProcessingError "Erro no processamento de arquivos" (Some e)).
Proof.
  intros file.
  assert (JsString.includes
            (@toString ReferencePlatform.platform
               (headerCell Samples.sheetWrongHeader CONFIG.EXCEL.JOB_NAME))
            (CONFIG.EXCEL.HEADERS CONFIG.EXCEL.JOB_NAME) = false) as Hcell
    by (vm_compute; reflexivity).
  split; [exact Hcell|].
  destruct (@header_validation ReferencePlatform.platform
              Samples.sheetWrongHeader CONFIG.EXCEL.JOB_NAME (or_intror Hcell))
    as (Hthrow & Hfile).
  split; [exact Hthrow|].
  destruct (Hfile file eq_refl) as (_ & _ & Hbatch).
  apply Hbatch. right. left.
Defined.

(** C3 as the specification states it fails: the cell A9 of this sheet
    does not hold the exact header text, only a text that includes it;
    validation passes, the rows are read and the file contributes its
    records. *)
Lemma header_validation_is_not_exact :
  let file := Samples.file "b.xlsx" Samples.sheetLongHeader in
  headerCell Samples.sheetLongHeader CONFIG.EXCEL.JOB_NAME
  = Text "Job Name (scheduler)"
  /\ "Job Name (scheduler)" <> CONFIG.EXCEL.HEADERS CONFIG.EXCEL.JOB_NAME
  /\ @DataProcessor.validateHeaders ReferencePlatform.platform
       Samples.sheetLongHeader = Ok tt
  /\ @DataProcessor.readFile ReferencePlatform.platform file
     = Ok [Samples.goodRow1; Samples.badEndRow; Samples.goodRow2]
  /\ exists r out,
       (@DataProcessor.processFiles ReferencePlatform.platform [file]
          DataProcessor.new).1 = Ok (r :: out)
       /\ ExecutionRecord.jobName r = "backup".
Proof.
  intros file.
  assert (@DataProcessor.readFile ReferencePlatform.platform file
          = Ok [Samples.goodRow1; Samples.badEndRow; Samples.goodRow2]) as Hread
    by (vm_compute; reflexivity).
  split; [vm_compute; reflexivity|]. split; [discriminate|].
  split; [vm_compute; reflexivity|]. split; [exact Hread|].
  pose proof (@processRow_Some ReferencePlatform.platform Samples.goodRow1 _ _
                parse_goodRow1_start parse_goodRow1_end ltac:(lia)) as Hrow.
  destruct (@processFiles_Ok ReferencePlatform.platform [file]
              [omap (@DataProcessor.processRow ReferencePlatform.platform)
                    [Samples.goodRow1; Samples.badEndRow; Samples.goodRow2]]
              DataProcessor.new) as (statistics & _ & ->).
  { constructor; [|constructor]. apply contributionOf_Ok.
    exists [Samples.goodRow1; Samples.badEndRow; Samples.goodRow2].
    split; [exact Hread|]. split; [discriminate|reflexivity]. }
  { apply Samples_sheet_names. by repeat constructor. }
  cbn [omap list_omap concat fst]. rewrite Hrow. rewrite app_nil_r.
  eexists _, _. split; reflexivity.
Qed.

Lemma file_without_rows_is_rejected_witness :
  let file := Samples.file "empty.xlsx" Samples.sheetNoRow in
  @DataProcessor.readFile ReferencePlatform.platform file = Ok []
  /\ @DataProcessor.processFiles ReferencePlatform.platform [file] DataProcessor.new
     = (Throw (ProcessingError "Erro no processamento de arquivos"
                 (Some (DataError "Arquivo vazio ou sem dados válidos" None))),
        DataProcessor.new).
Proof.
  intros file.
  assert (@DataProcessor.readFile ReferencePlatform.platform file = Ok []) as Hread
    by (vm_compute; reflexivity).
  split; [exact Hread|].
  destruct (@file_without_rows_is_rejected ReferencePlatform.platform file Hread)
    as (_ & _ & _ & Halone).
  apply Halone.
Defined.

(** C4 as the specification states it fails: this file has the expected
    headers and two rows, none of which has two valid dates. After
    normalization no row is left, yet [processFileData] returns the
    empty array and the batch made of this file succeeds with no
    record. *)
Lemma file_without_valid_rows_is_accepted :
  let file := Samples.file "c.xlsx" Samples.sheetNoValidRow in
  @DataProcessor.readFile ReferencePlatform.platform file
  = Ok [Samples.badEndRow; Samples.badStartRow]
  /\ omap (@DataProcessor.processRow ReferencePlatform.platform)
          [Samples.badEndRow; Samples.badStartRow] = []
  /\ @DataProcessor.processFileData ReferencePlatform.platform
       [Samples.badEndRow; Samples.badStartRow] = Ok []
  /\ @DataProcessor.processFiles ReferencePlatform.platform [file] DataProcessor.new
     = (Ok [], DataProcessor.new).
Proof.
  intros file. repeat split; vm_compute; reflexivity.
Qed.

(** ** The examples of the specification, run on the samples *)

(** The job of the samples with a single run, fewer than
    [CONFIG.ANALYSIS.MIN_EXECUTIONS], has its statistics: a mean of 45
    minutes and a standard deviation of 0. *)
Lemma statistics_of_single_run :
  length (jobsOf "report" Samples.records) < CONFIG.ANALYSIS.MIN_EXECUTIONS
  /\ exists statistics entry,
       DataProcessor.calculateStatistics Samples.records = Ok statistics
       /\ statistics !! "report" = Some entry
       /\ DataProcessor.totalExecutions entry = 1
       /\ Utils.mean (DataProcessor.basicStats entry) = 45%R
       /\ Utils.std (DataProcessor.basicStats entry) = 0%R.
Proof.
  split; [vm_compute; lia|].
  destruct (calculateStatistics_Ok Samples.records Samples_records_names)
    as (statistics & Hok).
  pose proof (calculateStatistics_entries _ _ Hok "report") as Hentries.
  assert (jobsOf "report" Samples.records
          = [Samples.run "report" "agent-2" 1710498600000 45]) as Hjobs
    by reflexivity.
  rewrite Hjobs in Hentries. destruct Hentries as (entry & Hlookup & Hentry).
  exists statistics, entry. split; [done|]. split; [done|].
  unfold DataProcessor.statisticsOfGroup, Utils.calculateStats in Hentry.
  cbv zeta in Hentry.
  cbn [fmap list_fmap Samples.run ExecutionRecord.duration length] in Hentry.
  assert (Utils.reduce_sum [45%R] = 45%R) as Hsum
    by (unfold Utils.reduce_sum; cbn [foldl]; by apply add_IZR).
  rewrite Hsum in Hentry.
  assert (Binary64.div 45 (INR 1) = 45%R) as Hmean
    by (rewrite INR_IZR_INZ; by apply div_IZR).
  rewrite Hmean in Hentry.
  rewrite (sub_IZR 45 45 0), (Math_pow2_IZR 0 0) in Hentry by small_integers.
  assert (Utils.reduce_sum [0%R] = 0%R) as Hzero
    by (unfold Utils.reduce_sum; cbn [foldl]; by apply add_IZR).
  rewrite Hzero in Hentry.
  assert (Binary64.div 0 (INR 1) = 0%R) as Hvariance
    by (rewrite INR_IZR_INZ; by apply div_IZR).
  rewrite Hvariance in Hentry.
  assert (Binary64.sqrt 0 = 0%R) as Hstd
    by (unfold Binary64.sqrt; rewrite sqrt_0; apply round_0).
  rewrite Hstd in Hentry.
  injection Hentry as <-.
  cbn [DataProcessor.totalExecutions DataProcessor.basicStats
       Utils.mean Utils.std length].
  repeat split.
Qed.

(** * Further properties of the code *)

(** ** [Utils.groupBy] partitions the array *)







(** ** The entries of the statistics *)

Lemma length_remove_dups_le (l : list string) : length (remove_dups l) <= length l.
Proof.
  induction l as [|x l IH]; [done|]. cbn.
  destruct (decide_rel elem_of x l); cbn; lia.
Qed.

Lemma size_list_to_set_le (l : list string) :
  size (list_to_set l : gset string) <= length l.
Proof.
  assert ((list_to_set l : gset string) = list_to_set (remove_dups l)) as ->.
  { apply set_eq. intros x. by rewrite !elem_of_list_to_set, elem_of_remove_dups. }
  rewrite size_list_to_set by apply NoDup_remove_dups.
  apply length_remove_dups_le.
Qed.

(** X5. In every entry of the statistics the two counts agree and are at
    least 1, the number of distinct agents lies between 1 and that
    count, and the entry belongs to a job of the data whose runs it
    counts. *)
Theorem statistics_entry_counts (processedData : list ExecutionRecord.t)
    (statistics : gmap string DataProcessor.JobStatistics) (jobName : string)
    (entry : DataProcessor.JobStatistics) :
  DataProcessor.calculateStatistics processedData = Ok statistics ->
  statistics !! jobName = Some entry ->
  DataProcessor.totalExecutions entry = length (jobsOf jobName processedData)
  /\ DataProcessor.totalExecutions entry
     = Utils.count (DataProcessor.basicStats entry)
  /\ 1 <= DataProcessor.uniqueAgents entry <= DataProcessor.totalExecutions entry
  /\ DataProcessor.uniqueAgents entry
     = length (remove_dups (ExecutionRecord.agentName
                              <$> jobsOf jobName processedData)).
Proof.
  intros Hok Hlookup.
  pose proof (calculateStatistics_entries _ _ Hok jobName) as Hentries.
  set (group := jobsOf jobName processedData) in *.
  assert (group <> [] /\ DataProcessor.statisticsOfGroup group = Ok entry)
    as [Hne Hgroup].
  { destruct group; [by rewrite Hentries in Hlookup|].
    destruct Hentries as (entry' & Hlookup' & Hgroup).
    split; [done|congruence]. }
  clearbody group.
  unfold DataProcessor.statisticsOfGroup in Hgroup.
  destruct (Utils.calculateStats _) as [stats|] eqn:Hstats; [|done].
  injection Hgroup as Hentry. rewrite <- Hentry.
  cbn [DataProcessor.totalExecutions DataProcessor.basicStats
       DataProcessor.uniqueAgents].
  destruct (calculateStats_spec _ _ Hstats) as (_ & _ & _ & _ & Hcount).
  rewrite length_fmap in Hcount.
  set (names := ExecutionRecord.agentName <$> group).
  assert (size (list_to_set names : gset string) = length (remove_dups names))
    as Hsize.
  { assert ((list_to_set names : gset string) = list_to_set (remove_dups names))
      as -> by (apply set_eq; intros x;
                by rewrite !elem_of_list_to_set, elem_of_remove_dups).
    apply size_list_to_set, NoDup_remove_dups. }
  split; [done|]. split; [done|]. split; [|exact Hsize].
  split.
  - assert (size (list_to_set names : gset string) <> 0) as Hsz; [|lia].
    apply size_non_empty_iff. intros Hempty.
    destruct group as [|job jobs]; [done|].
    assert (ExecutionRecord.agentName job ∈ (list_to_set names : gset string))
      as Hin by (apply elem_of_list_to_set; left).
    rewrite Hempty in Hin. by apply not_elem_of_empty in Hin.
  - pose proof (size_list_to_set_le names) as Hle.
    unfold names in Hle at 2. rewrite length_fmap in Hle. exact Hle.
Qed.

Lemma statistics_entry_counts_witness :
  exists statistics entry,
    DataProcessor.calculateStatistics Samples.records = Ok statistics
    /\ statistics !! "report" = Some entry
    /\ DataProcessor.totalExecutions entry
       = Utils.count (DataProcessor.basicStats entry)
    /\ 1 <= DataProcessor.uniqueAgents entry <= DataProcessor.totalExecutions entry.
Proof.
  destruct statistics_of_single_run as (_ & statistics & entry & Hok & Hlookup & _).
  exists statistics, entry. split; [exact Hok|]. split; [exact Hlookup|].
  destruct (statistics_entry_counts Samples.records statistics "report" entry
              Hok Hlookup) as (_ & Hcount & Hagents & _).
  split; [exact Hcount|exact Hagents].
Defined.

(** ** The statistics of the export agree with those of the processor *)






(** ** How [processFiles] fails *)

Section Failures.
Context `{Platform}.

Lemma validateHeaders_only_ValidationError (sheet : XLSX.Sheet) e :
  DataProcessor.validateHeaders sheet = Throw e ->
  exists message, e = ValidationError message None.
Proof.
  unfold DataProcessor.validateHeaders, CONFIG.EXCEL.COLUMNS_entries.
  destruct (validateHeaders_from_cases
              [CONFIG.EXCEL.JOB_NAME; CONFIG.EXCEL.AGENT_NAME;
               CONFIG.EXCEL.START_DATETIME; CONFIG.EXCEL.END_DATETIME] sheet)
    as [[_ ->]|[_ [message ->]]]; [done|].
  intros [= <-]. by exists message.
Qed.



Lemma processFiles_loop_stops (good : list File) perFile (bad : File)
    (rest : list File) e (this : DataProcessor.State) :
  Forall2 (fun file out => contributionOf file = Ok out) good perFile ->
  contributionOf bad = Throw e ->
  DataProcessor.processFiles_loop (good ++ bad :: rest) this
  = (Throw e,
     {| DataProcessor.rawData := DataProcessor.rawData this;
        DataProcessor.processedData :=
          DataProcessor.processedData this ++ concat perFile;
        DataProcessor.statistics := DataProcessor.statistics this |}).
Proof.
  intros Hgood Hbad. revert this.
  induction Hgood as [|file out good perFile Hout _ IH]; intros this.
  - cbn [app DataProcessor.processFiles_loop]. rewrite Hbad.
    cbn. rewrite app_nil_r. by destruct this.
  - cbn [app DataProcessor.processFiles_loop]. rewrite Hout, IH. cbn.
    by rewrite app_assoc.
Qed.

(** X8. [processFiles] stops at the first file that fails. Whatever
    files come after it, the batch is rejected with the error of that
    file as cause, and the processor is left with the records of the
    files before it and with empty statistics. *)
Theorem processFiles_stops_at_first_failure (good : list File) perFile
    (bad : File) (rest : list File) e (this : DataProcessor.State) :
  Forall2 (fun file out => contributionOf file = Ok out) good perFile ->
  contributionOf bad = Throw e ->
  DataProcessor.processFiles (good ++ bad :: rest) this
  = (Throw (ProcessingError "Erro no processamento de arquivos" (Some e)),
     {| DataProcessor.rawData := [];
        DataProcessor.processedData := concat perFile;
        DataProcessor.statistics := ∅ |}).
Proof.
  intros Hgood Hbad. unfold DataProcessor.processFiles.
  by rewrite (processFiles_loop_stops good perFile bad rest e _ Hgood Hbad).
Qed.

Lemma validateHeaders_from_first (before after : list (CONFIG.EXCEL.ColumnKey * string))
    (column : CONFIG.EXCEL.ColumnKey) (sheet : XLSX.Sheet) :
  Forall (fun entry => entry.2 = CONFIG.EXCEL.COLUMNS entry.1
                       /\ headerFound sheet entry.1 = true) before ->
  headerFound sheet column = false ->
  DataProcessor.validateHeaders_from
    (before ++ (column, CONFIG.EXCEL.COLUMNS column) :: after) sheet
  = Throw (ValidationError
             ("Cabeçalho não encontrado: " +:+ CONFIG.EXCEL.HEADERS column
              +:+ " em " +:+ CONFIG.EXCEL.COLUMNS column
              +:+ pretty CONFIG.EXCEL.HEADER_ROW) None).
Proof.
  intros Hbefore Hmissing.
  induction Hbefore as [|[c letter] before [Hletter Hfound] _ IH].
  - cbn [app DataProcessor.validateHeaders_from].
    fold (headerCell sheet column). unfold headerFound in Hmissing.
    destruct (truthy (headerCell sheet column)); cbn in Hmissing |- *; [|done].
    by rewrite Hmissing.
  - cbn [app DataProcessor.validateHeaders_from]. cbn in Hletter, Hfound.
    subst letter. fold (headerCell sheet c).
    unfold headerFound in Hfound. apply andb_prop in Hfound as [-> ->].
    exact IH.
Qed.

(** X9. [validateHeaders] passes exactly when each of the four header
    cells holds a text that includes its header. Otherwise its
    [ValidationError] names the first header, in the order job name,
    agent name, start, end, that was not found, and the address of its
    cell. *)
Theorem validateHeaders_reports_first_missing (sheet : XLSX.Sheet) :
  (DataProcessor.validateHeaders sheet = Ok tt
   <-> forall column, headerFound sheet column = true)
  /\ forall before column after,
       [CONFIG.EXCEL.JOB_NAME; CONFIG.EXCEL.AGENT_NAME;
        CONFIG.EXCEL.START_DATETIME; CONFIG.EXCEL.END_DATETIME]
       = before ++ column :: after ->
       Forall (fun c => headerFound sheet c = true) before ->
       headerFound sheet column = false ->
       DataProcessor.validateHeaders sheet
       = Throw (ValidationError
                  ("Cabeçalho não encontrado: " +:+ CONFIG.EXCEL.HEADERS column
                   +:+ " em " +:+ CONFIG.EXCEL.COLUMNS column +:+ "9") None).
Proof.
  split; [apply validateHeaders_Ok|].
  intros before column after Hsplit Hbefore Hmissing.
  unfold DataProcessor.validateHeaders, CONFIG.EXCEL.COLUMNS_entries.
  rewrite Hsplit, fmap_app, fmap_cons.
  apply (validateHeaders_from_first _ _ column sheet); [|done].
  apply Forall_fmap. eapply Forall_impl; [exact Hbefore|].
  intros c Hc. by split.
Qed.
End Failures.


Lemma processFiles_stops_at_first_failure_witness :
  exists records,
    @DataProcessor.processFiles ReferencePlatform.platform
      ([Samples.file "a.xlsx" Samples.sheet]
       ++ Samples.file "wrong.xlsx" Samples.sheetWrongHeader
       :: [Samples.file "c.xlsx" Samples.sheetNoValidRow]) DataProcessor.new
    = (Throw (ProcessingError "Erro no processamento de arquivos"
                (Some (FileError "Erro ao ler arquivo wrong.xlsx"
                         (Some (ValidationError
                                  "Cabeçalho não encontrado: Job Name em A9"
                                  None))))),
       {| DataProcessor.rawData := [];
          DataProcessor.processedData := records;
          DataProcessor.statistics := ∅ |})
    /\ length records = 2.
Proof.
  pose proof (@processRow_Some ReferencePlatform.platform Samples.goodRow1 _ _
                parse_goodRow1_start parse_goodRow1_end ltac:(lia)) as Hrow1.
  assert (exists r, @DataProcessor.processRow ReferencePlatform.platform
                      Samples.goodRow2 = Some r) as [r2 Hrow2].
  { eexists. apply (@processRow_Some ReferencePlatform.platform Samples.goodRow2
                      1710576000000 1710578700000);
      [vm_compute; reflexivity..|lia]. }
  exists (omap (@DataProcessor.processRow ReferencePlatform.platform)
               [Samples.goodRow1; Samples.badEndRow; Samples.goodRow2] ++ []).
  split.
  - apply (@processFiles_stops_at_first_failure ReferencePlatform.platform
             [Samples.file "a.xlsx" Samples.sheet]
             [omap (@DataProcessor.processRow ReferencePlatform.platform)
                   [Samples.goodRow1; Samples.badEndRow; Samples.goodRow2]]).
    + constructor; [|constructor]. apply contributionOf_Ok.
      exists [Samples.goodRow1; Samples.badEndRow; Samples.goodRow2].
      split; [vm_compute; reflexivity|]. split; [discriminate|reflexivity].
    + vm_compute. reflexivity.
  - rewrite app_nil_r. cbn [omap list_omap]. rewrite Hrow1, Hrow2.
    assert (@DataProcessor.processRow ReferencePlatform.platform Samples.badEndRow
            = None) as -> by (vm_compute; reflexivity).
    reflexivity.
Defined.

(** ** [LoadingManager] *)

Lemma Map_set_keys (id message : string) (states : list (string * string)) :
  (LoadingManager.Map_set id message states).*1
  = if decide (id ∈ states.*1) then states.*1 else states.*1 ++ [id].
Proof.
  induction states as [|[k m] states IH]; [done|].
  cbn [LoadingManager.Map_set fmap list_fmap fst].
  destruct (decide (k = id)) as [->|Hne].
  - rewrite decide_True by left. done.
  - cbn [fmap list_fmap fst]. change (list_fmap _ _ fst ?l) with (l.*1).
    rewrite IH. destruct (decide (id ∈ states.*1)) as [Hin|Hnin].
    + rewrite decide_True by (by right). done.
    + rewrite decide_False; [done|].
      intros [?|?]%elem_of_cons; congruence.
Qed.

Lemma Map_set_nonempty (id message : string) (states : list (string * string)) :
  LoadingManager.Map_set id message states <> [].
Proof.
  destruct states as [|[k m] states]; cbn; [done|]. by destruct (decide (k = id)).
Qed.

Lemma Map_set_length (id message : string) (states : list (string * string)) :
  states <> [] -> length (LoadingManager.Map_set id message states) >= length states.
Proof.
  intros _. induction states as [|[k m] states IH]; cbn; [lia|].
  destruct (decide (k = id)); cbn; lia.
Qed.

Lemma Map_set_NoDup (id message : string) (states : list (string * string)) :
  NoDup states.*1 -> NoDup (LoadingManager.Map_set id message states).*1.
Proof.
  intros Hnodup. rewrite Map_set_keys.
  destruct (decide (id ∈ states.*1)); [done|].
  apply NoDup_app. split; [done|]. split; [|apply NoDup_singleton].
  intros x Hx ->%list_elem_of_singleton. done.
Qed.

Lemma Map_delete_keys_subseteq (id : string) (states : list (string * string)) k :
  k ∈ (LoadingManager.Map_delete id states).*1 -> k ∈ states.*1.
Proof.
  induction states as [|[k' m] states IH]; [done|].
  cbn [LoadingManager.Map_delete]. destruct (decide (k' = id)).
  - intros Hin. by right.
  - cbn [fmap list_fmap fst]. intros [->|Hin]%elem_of_cons; [left|right; by apply IH].
Qed.

Lemma Map_delete_NoDup (id : string) (states : list (string * string)) :
  NoDup states.*1 -> NoDup (LoadingManager.Map_delete id states).*1.
Proof.
  induction states as [|[k m] states IH]; [done|].
  cbn [LoadingManager.Map_delete fmap list_fmap fst].
  intros [Hk Hnodup]%NoDup_cons. destruct (decide (k = id)); [done|].
  cbn [fmap list_fmap fst]. apply NoDup_cons. split; [|by apply IH].
  intros Hin. apply Hk. by eapply Map_delete_keys_subseteq.
Qed.

Lemma Map_delete_fresh (id : string) (states : list (string * string)) :
  id ∉ states.*1 -> LoadingManager.Map_delete id states = states.
Proof.
  induction states as [|[k m] states IH]; [done|].
  cbn [LoadingManager.Map_delete fmap list_fmap fst].
  intros Hnin. rewrite decide_False.
  - f_equal. apply IH. intros Hin. apply Hnin. by right.
  - intros ->. apply Hnin. left.
Qed.

(** Deleting a key that was set removes it, whether it was new or not. *)
Lemma Map_delete_set (id message : string) (states : list (string * string)) :
  NoDup states.*1 ->
  LoadingManager.Map_delete id (LoadingManager.Map_set id message states)
  = LoadingManager.Map_delete id states.
Proof.
  induction states as [|[k m] states IH]; intros Hnodup.
  - cbn. by rewrite decide_True.
  - cbn [LoadingManager.Map_set LoadingManager.Map_delete].
    destruct (decide (k = id)) as [->|Hne];
      cbn [LoadingManager.Map_delete].
    + by rewrite decide_True.
    + rewrite decide_False by done. f_equal. apply IH.
      cbn [fmap list_fmap fst] in Hnodup. by apply NoDup_cons in Hnodup as [_ ?].
Qed.

Lemma overlay_show (message : string) (this : LoadingManager.State) :
  LoadingManager.overlay (LoadingManager.show message this)
  = (fun _ => {| LoadingManager.hidden := false;
                 LoadingManager.message := Some message |})
    <$> LoadingManager.overlay this.
Proof. by destruct this as [[o|] states]. Qed.

Lemma overlay_hide (this : LoadingManager.State) :
  LoadingManager.overlay (LoadingManager.hide this)
  = (fun o => {| LoadingManager.hidden := true;
                 LoadingManager.message := LoadingManager.message o |})
    <$> LoadingManager.overlay this.
Proof. by destruct this as [[o|] states]. Qed.

Lemma loadingStates_show (message : string) (this : LoadingManager.State) :
  LoadingManager.loadingStates (LoadingManager.show message this)
  = LoadingManager.loadingStates this.
Proof. by destruct this as [[o|] states]. Qed.

Lemma loadingStates_hide (this : LoadingManager.State) :
  LoadingManager.loadingStates (LoadingManager.hide this)
  = LoadingManager.loadingStates this.
Proof. by destruct this as [[o|] states]. Qed.

Lemma loadingStates_startLoading (id message : string) (this : LoadingManager.State) :
  LoadingManager.loadingStates (LoadingManager.startLoading id message this)
  = LoadingManager.Map_set id message (LoadingManager.loadingStates this).
Proof.
  unfold LoadingManager.startLoading. cbv zeta.
  destruct (Nat.eqb _ _); by rewrite ?loadingStates_show.
Qed.

Lemma loadingStates_finishLoading (id : string) (this : LoadingManager.State) :
  LoadingManager.loadingStates (LoadingManager.finishLoading id this)
  = LoadingManager.Map_delete id (LoadingManager.loadingStates this).
Proof.
  unfold LoadingManager.finishLoading. cbv zeta.
  destruct (Nat.eqb _ _); by rewrite ?loadingStates_show, ?loadingStates_hide.
Qed.

Lemma overlay_call (this : LoadingManager.State) (c : LoadingManager.Call) :
  is_Some (LoadingManager.overlay (LoadingManager.call this c))
  <-> is_Some (LoadingManager.overlay this).
Proof.
  destruct c as [id message|id];
    unfold LoadingManager.call, LoadingManager.startLoading,
      LoadingManager.finishLoading; cbv zeta;
    destruct (Nat.eqb _ _);
    rewrite ?overlay_show, ?overlay_hide, ?fmap_is_Some; done.
Qed.

(** After any call the overlay is hidden exactly when no loading state
    is left, provided it was visible while states were pending. *)
Lemma hidden_after_call (this : LoadingManager.State) (c : LoadingManager.Call) :
  (forall o, LoadingManager.overlay this = Some o ->
             LoadingManager.loadingStates this <> [] ->
             LoadingManager.hidden o = false) ->
  forall o, LoadingManager.overlay (LoadingManager.call this c) = Some o ->
    (LoadingManager.hidden o = true
     <-> LoadingManager.loadingStates (LoadingManager.call this c) = []).
Proof.
  intros Hvisible o. destruct c as [id message|id]; cbn [LoadingManager.call].
  - rewrite loadingStates_startLoading.
    pose proof (Map_set_nonempty id message (LoadingManager.loadingStates this))
      as Hne.
    unfold LoadingManager.startLoading. cbv zeta.
    cbn [LoadingManager.loadingStates].
    destruct (Nat.eqb_spec
                (length (LoadingManager.Map_set id message
                           (LoadingManager.loadingStates this))) 1)
      as [Hone|Hmany].
    + rewrite overlay_show. cbn [LoadingManager.overlay].
      destruct (LoadingManager.overlay this); [|done].
      intros [= <-]. cbn. split; [done|]. intros Hnil. by rewrite Hnil in Hne.
    + cbn [LoadingManager.overlay]. intros Ho.
      assert (LoadingManager.loadingStates this <> []) as Hstates
        by (intros Hnil; rewrite Hnil in Hmany; by cbn in Hmany).
      rewrite (Hvisible o Ho Hstates). split; [done|].
      intros Hnil. by rewrite Hnil in Hne.
  - rewrite loadingStates_finishLoading.
    unfold LoadingManager.finishLoading. cbv zeta.
    cbn [LoadingManager.loadingStates].
    destruct (Nat.eqb_spec
                (length (LoadingManager.Map_delete id
                           (LoadingManager.loadingStates this))) 0)
      as [Hzero|Hsome].
    + rewrite overlay_hide. cbn [LoadingManager.overlay].
      destruct (LoadingManager.overlay this); [|done].
      intros [= <-]. cbn. split; [|done]. intros _. by apply nil_length_inv.
    + rewrite overlay_show. cbn [LoadingManager.overlay].
      destruct (LoadingManager.overlay this); [|done].
      intros [= <-]. cbn. split; [done|]. intros Hnil. by rewrite Hnil in Hsome.
Qed.

Lemma calls_snoc (cs : list LoadingManager.Call) (c : LoadingManager.Call)
    (this : LoadingManager.State) :
  LoadingManager.calls (cs ++ [c]) this
  = LoadingManager.call (LoadingManager.calls cs this) c.
Proof. unfold LoadingManager.calls. by rewrite foldl_snoc. Qed.

Lemma loadingStates_call_NoDup (this : LoadingManager.State)
    (c : LoadingManager.Call) :
  NoDup (LoadingManager.loadingStates this).*1 ->
  NoDup (LoadingManager.loadingStates (LoadingManager.call this c)).*1.
Proof.
  intros Hnodup. destruct c as [id message|id]; cbn [LoadingManager.call].
  - rewrite loadingStates_startLoading. by apply Map_set_NoDup.
  - rewrite loadingStates_finishLoading. by apply Map_delete_NoDup.
Qed.

Lemma calls_NoDup (cs : list LoadingManager.Call)
    (overlay : option LoadingManager.Overlay) :
  NoDup (LoadingManager.loadingStates
           (LoadingManager.calls cs (LoadingManager.new overlay))).*1.
Proof.
  induction cs as [|c cs IH] using rev_ind; [constructor|].
  rewrite calls_snoc. by apply loadingStates_call_NoDup.
Qed.

(** As long as a loading state is pending the overlay is visible. *)
Lemma calls_visible_while_pending (cs : list LoadingManager.Call)
    (overlay : option LoadingManager.Overlay) o :
  LoadingManager.overlay (LoadingManager.calls cs (LoadingManager.new overlay))
  = Some o ->
  LoadingManager.loadingStates
    (LoadingManager.calls cs (LoadingManager.new overlay)) <> [] ->
  LoadingManager.hidden o = false.
Proof.
  revert o. induction cs as [|c cs IH] using rev_ind; intros o; [done|].
  rewrite calls_snoc. intros Ho Hpending.
  destruct (LoadingManager.hidden o) eqn:Hhidden; [|done].
  by apply (hidden_after_call _ _ IH o Ho) in Hhidden.
Qed.

(** X10. After any sequence of [startLoading] and [finishLoading] calls on
    a new manager, no id is registered twice, and, once a call was
    made, the overlay is hidden exactly when no loading state is left:
    it stays visible as long as one is pending. *)
Theorem overlay_hidden_iff_idle (cs : list LoadingManager.Call)
    (overlay : option LoadingManager.Overlay) :
  let this := LoadingManager.calls cs (LoadingManager.new overlay) in
  NoDup (LoadingManager.loadingStates this).*1
  /\ (is_Some (LoadingManager.overlay this) <-> is_Some overlay)
  /\ (cs <> [] ->
      forall o, LoadingManager.overlay this = Some o ->
        (LoadingManager.hidden o = true
         <-> LoadingManager.loadingStates this = [])).
Proof.
  cbv zeta. split; [apply calls_NoDup|]. split.
  - induction cs as [|c cs IH] using rev_ind; [done|].
    by rewrite calls_snoc, overlay_call.
  - destruct cs as [|c cs _] using rev_ind; [done|]. intros _.
    rewrite calls_snoc. apply hidden_after_call.
    intros o. apply calls_visible_while_pending.
Qed.

(** X11. A loading state that is started and then finished leaves the
    pending states as they were, whether it was started once or twice;
    if none was pending the overlay ends hidden, and otherwise it shows
    again the message of the last pending state. *)
Theorem startLoading_then_finishLoading (this : LoadingManager.State)
    (id message message' : string) :
  NoDup (LoadingManager.loadingStates this).*1 ->
  id ∉ (LoadingManager.loadingStates this).*1 ->
  let once := LoadingManager.finishLoading id
                (LoadingManager.startLoading id message this) in
  let twice := LoadingManager.finishLoading id
                 (LoadingManager.startLoading id message'
                    (LoadingManager.startLoading id message this)) in
  LoadingManager.loadingStates once = LoadingManager.loadingStates this
  /\ LoadingManager.loadingStates twice = LoadingManager.loadingStates this
  /\ (LoadingManager.loadingStates this = [] ->
      LoadingManager.hidden <$> LoadingManager.overlay once
      = (fun _ => true) <$> LoadingManager.overlay this)
  /\ (forall pending, last (LoadingManager.loadingStates this) = Some pending ->
      LoadingManager.overlay once
      = (fun _ => {| LoadingManager.hidden := false;
                     LoadingManager.message := Some pending.2 |})
        <$> LoadingManager.overlay this).
Proof.
  intros Hnodup Hfresh.
  cbv zeta. split; [|split; [|split]].
  - by rewrite loadingStates_finishLoading, loadingStates_startLoading,
      Map_delete_set, Map_delete_fresh.
  - rewrite loadingStates_finishLoading, !loadingStates_startLoading,
      Map_delete_set by (by apply Map_set_NoDup).
    by rewrite Map_delete_set, Map_delete_fresh.
  - intros Hidle.
    unfold LoadingManager.finishLoading. cbv zeta.
    cbn [LoadingManager.loadingStates LoadingManager.overlay].
    rewrite loadingStates_startLoading, Map_delete_set, Map_delete_fresh by done.
    rewrite Hidle. cbn [length Nat.eqb]. rewrite overlay_hide.
    cbn [LoadingManager.overlay].
    unfold LoadingManager.startLoading. cbv zeta.
    destruct (Nat.eqb _ _); rewrite ?overlay_show; cbn [LoadingManager.overlay];
      by destruct (LoadingManager.overlay this).
  - intros pending Hlast.
    assert (LoadingManager.loadingStates this <> []) as Hne
      by (intros Hnil; by rewrite Hnil in Hlast).
    unfold LoadingManager.finishLoading. cbv zeta.
    cbn [LoadingManager.loadingStates LoadingManager.overlay].
    rewrite loadingStates_startLoading, Map_delete_set, Map_delete_fresh by done.
    destruct (Nat.eqb_spec (length (LoadingManager.loadingStates this)) 0)
      as [Hzero|_]; [by apply nil_length_inv in Hzero|].
    rewrite overlay_show. cbn [LoadingManager.overlay].
    rewrite fmap_last, Hlast. cbn.
    unfold LoadingManager.startLoading. cbv zeta.
    destruct (Nat.eqb _ _); rewrite ?overlay_show; cbn [LoadingManager.overlay];
      by destruct (LoadingManager.overlay this).
Qed.

Lemma startLoading_then_finishLoading_witness :
  let this :=
    {| LoadingManager.overlay :=
         Some {| LoadingManager.hidden := false;
                 LoadingManager.message := Some "Exportando XLSX..." |};
       LoadingManager.loadingStates :=
         [("export-xlsx", "Exportando XLSX...");
          ("export-pdf", "Exportando PDF...")] |} in
  LoadingManager.overlay
    (LoadingManager.finishLoading "process-files"
       (LoadingManager.startLoading "process-files" "Processando arquivos..."
          this))
  = Some {| LoadingManager.hidden := false;
            LoadingManager.message := Some "Exportando PDF..." |}.
Proof.
  intros this.
  assert (NoDup (LoadingManager.loadingStates this).*1) as Hnodup
    by (apply (bool_decide_unpack _); vm_compute; reflexivity).
  assert ("process-files" ∉ (LoadingManager.loadingStates this).*1) as Hfresh
    by (apply (bool_decide_unpack _); vm_compute; reflexivity).
  destruct (startLoading_then_finishLoading this "process-files"
              "Processando arquivos..." "Processando arquivos..."
              Hnodup Hfresh) as (_ & _ & _ & Hshown).
  exact (Hshown ("export-pdf", "Exportando PDF...") eq_refl).
Defined.

(** ** [DataProcessor.processFiles] and the loading overlay *)

Lemma Map_delete_keys_other (id k : string) (states : list (string * string)) :
  k <> id -> k ∈ states.*1 -> k ∈ (LoadingManager.Map_delete id states).*1.
Proof.
  intros Hne. induction states as [|[k' m] states IH]; [done|].
  cbn [LoadingManager.Map_delete fmap list_fmap fst].
  intros [->|Hin]%elem_of_cons.
  - rewrite decide_False by done. left.
  - destruct (decide (k' = id)); [done|]. right. by apply IH.
Qed.

Lemma Map_set_keys_elem (id message k : string) (states : list (string * string)) :
  k ∈ states.*1 -> k ∈ (LoadingManager.Map_set id message states).*1.
Proof.
  intros Hin. rewrite Map_set_keys.
  destruct (decide (id ∈ states.*1)); [done|]. apply elem_of_app. by left.
Qed.

Lemma Map_set_keys_self (id message : string) (states : list (string * string)) :
  id ∈ (LoadingManager.Map_set id message states).*1.
Proof.
  rewrite Map_set_keys.
  destruct (decide (id ∈ states.*1)); [done|]. apply elem_of_app. right. left.
Qed.

(** An id stays registered over the calls that do not finish it. *)
Lemma calls_keep_key (k : string) (cs : list LoadingManager.Call)
    (this : LoadingManager.State) :
  k ∈ (LoadingManager.loadingStates this).*1 ->
  Forall (fun c => c <> LoadingManager.CallFinish k) cs ->
  k ∈ (LoadingManager.loadingStates (LoadingManager.calls cs this)).*1.
Proof.
  intros Hin Hcs. induction cs as [|c cs IH] using rev_ind; [done|].
  apply Forall_app in Hcs as [Hcs Hc]. rewrite Forall_singleton in Hc.
  rewrite calls_snoc. destruct c as [id message|id]; cbn [LoadingManager.call].
  - rewrite loadingStates_startLoading. apply Map_set_keys_elem. by apply IH.
  - rewrite loadingStates_finishLoading. apply Map_delete_keys_other.
    + intros ->. by apply Hc.
    + by apply IH.
Qed.

Lemma calls_app (cs cs' : list LoadingManager.Call) (this : LoadingManager.State) :
  LoadingManager.calls (cs ++ cs') this
  = LoadingManager.calls cs' (LoadingManager.calls cs this).
Proof. unfold LoadingManager.calls. by rewrite foldl_app. Qed.

Section LoadingLemmas.
Context `{Platform}.

(** X12. [processFiles] finishes the loading state it starts only when it
    succeeds. After a success the pending loading states are those
    from before the call. After a rejection the id it made up stays
    registered, and, whatever [startLoading] and [finishLoading] calls
    follow that do not name this id, the overlay stays visible. *)
Theorem processFiles_loading_state (loadingId : string) (files : list File)
    (this : DataProcessor.State) (cs : list LoadingManager.Call)
    (overlay : option LoadingManager.Overlay) :
  let manager := LoadingManager.calls cs (LoadingManager.new overlay) in
  loadingId ∉ (LoadingManager.loadingStates manager).*1 ->
  match DataProcessor.processFilesWithLoading loadingId files this manager with
  | (Ok _, _, manager') =>
      LoadingManager.loadingStates manager' = LoadingManager.loadingStates manager
  | (Throw _, _, manager') =>
      forall cs', Forall (fun c => c <> LoadingManager.CallFinish loadingId) cs' ->
        let manager'' := LoadingManager.calls cs' manager' in
        loadingId ∈ (LoadingManager.loadingStates manager'').*1
        /\ forall o, LoadingManager.overlay manager'' = Some o ->
                     LoadingManager.hidden o = false
  end.
Proof.
  intros manager Hfresh. unfold DataProcessor.processFilesWithLoading. cbv zeta.
  destruct (DataProcessor.processFiles files this) as [[processedData|error] this'].
  - rewrite loadingStates_finishLoading, loadingStates_startLoading.
    rewrite Map_delete_set by apply calls_NoDup. by apply Map_delete_fresh.
  - intros cs' Hcs'.
    assert (loadingId
            ∈ (LoadingManager.loadingStates
                 (LoadingManager.calls cs'
                    (LoadingManager.startLoading loadingId
                       "Processando arquivos..." manager))).*1) as Hin.
    { apply calls_keep_key; [|done].
      rewrite loadingStates_startLoading. apply Map_set_keys_self. }
    split; [done|]. intros o Ho.
    change (LoadingManager.startLoading loadingId "Processando arquivos..." manager)
      with (LoadingManager.call manager
              (LoadingManager.CallStart loadingId "Processando arquivos..."))
      in Ho, Hin.
    unfold manager in Ho, Hin. rewrite <- calls_snoc, <- calls_app in Ho, Hin.
    apply (calls_visible_while_pending _ _ _ Ho).
    intros Hnil. rewrite Hnil in Hin. by apply elem_of_nil in Hin.
Qed.

End LoadingLemmas.

Lemma processFiles_loading_state_witness :
  exists error this' manager',
    @DataProcessor.processFilesWithLoading ReferencePlatform.platform
      "id_k3x9q2m1z" [Samples.file "wrong.xlsx" Samples.sheetWrongHeader]
      DataProcessor.new
      (LoadingManager.calls
         [LoadingManager.CallStart "process-files" "Processando arquivos..."]
         (LoadingManager.new (Some {| LoadingManager.hidden := true;
                                      LoadingManager.message := None |})))
    = (Throw error, this', manager')
    /\ LoadingManager.hidden
       <$> LoadingManager.overlay
             (LoadingManager.calls [LoadingManager.CallFinish "process-files"]
                manager')
       = Some false.
Proof.
  pose proof (@processFiles_loading_state ReferencePlatform.platform
                "id_k3x9q2m1z"
                [Samples.file "wrong.xlsx" Samples.sheetWrongHeader]
                DataProcessor.new
                [LoadingManager.CallStart "process-files"
                   "Processando arquivos..."]
                (Some {| LoadingManager.hidden := true;
                         LoadingManager.message := None |})) as Hstate.
  cbv zeta in Hstate.
  assert ("id_k3x9q2m1z"
          ∉ (LoadingManager.loadingStates
               (LoadingManager.calls
                  [LoadingManager.CallStart "process-files"
                     "Processando arquivos..."]
                  (LoadingManager.new
                     (Some {| LoadingManager.hidden := true;
                              LoadingManager.message := None |})))).*1)
    as Hfresh by (apply (bool_decide_unpack _); vm_compute; reflexivity).
  specialize (Hstate Hfresh).
  destruct (@DataProcessor.processFilesWithLoading ReferencePlatform.platform
              "id_k3x9q2m1z" [Samples.file "wrong.xlsx" Samples.sheetWrongHeader]
              DataProcessor.new _) as [[[records|error] this'] manager'] eqn:Hrun.
  - exfalso.
    apply (f_equal (fun r => match r.1.1 with Ok _ => true | Throw _ => false end))
      in Hrun.
    vm_compute in Hrun. discriminate.
  - exists error, this', manager'. split; [reflexivity|].
    destruct (Hstate [LoadingManager.CallFinish "process-files"]) as [_ Hvisible].
    { constructor; [discriminate|constructor]. }
    destruct (LoadingManager.overlay
                (LoadingManager.calls [LoadingManager.CallFinish "process-files"]
                   manager')) as [o|] eqn:Ho.
    + cbn. f_equal. by apply Hvisible.
    + exfalso. apply (f_equal snd) in Hrun. cbn [snd] in Hrun. subst manager'.
      vm_compute in Ho. discriminate.
Defined.

(** ** [Utils.formatDuration] *)

(** X13. For a duration that is not negative, [formatDuration] gives the
    whole hours and the remaining minutes rounded to the nearest
    integer, so hours and minutes together are within half a minute of
    the duration. The rounding is not carried over to the hours: the
    minutes lie between 0 and 60, and they are 60 exactly when the
    remainder is 59.5 minutes or more. *)
Theorem formatDuration_rounding (minutes : R) :
  (0 <= minutes)%R ->
  let d := Utils.formatDuration minutes in
  (0 <= Utils.hours d)%Z
  /\ (60 * IZR (Utils.hours d) <= minutes < 60 * IZR (Utils.hours d) + 60)%R
  /\ (0 <= Utils.minutes d <= 60)%Z
  /\ (Rabs (60 * IZR (Utils.hours d) + IZR (Utils.minutes d) - minutes)
      <= 1 / 2)%R
  /\ (Utils.minutes d = 60%Z
      <-> (119 / 2 <= minutes - 60 * IZR (Utils.hours d))%R)
  /\ Utils.totalMinutes d = minutes
  /\ Utils.formatted d
     = pretty (Utils.hours d) +:+ "h " +:+ pretty (Utils.minutes d) +:+ "m".
Proof.
  intros Hminutes. cbv zeta.
  cbn [Utils.formatDuration Utils.hours Utils.minutes Utils.totalMinutes
       Utils.formatted].
  unfold Utils.Math_floor, Utils.Math_round, Utils.js_rem. cbv zeta.
  rewrite decide_False by (apply Rle_not_lt; nra).
  destruct (base_Int_part (minutes / 60)) as [Hfloor_le Hfloor_gt].
  set (h := Int_part (minutes / 60)) in *.
  destruct (base_Int_part (minutes - 60 * IZR h + 1 / 2)) as [Hround_le Hround_gt].
  set (mins := Int_part (minutes - 60 * IZR h + 1 / 2)) in *.
  assert (0 <= h)%Z as Hh.
  { apply Z.lt_succ_r. apply lt_IZR. rewrite succ_IZR. lra. }
  assert (0 <= mins)%Z as Hmins0.
  { apply Z.lt_succ_r. apply lt_IZR. rewrite succ_IZR. lra. }
  assert (mins <= 60)%Z as Hmins60.
  { apply Z.lt_succ_r. apply lt_IZR. change (Z.succ 60) with 61%Z. lra. }
  split; [done|]. split; [lra|]. split; [done|]. split; [|split; [|done]].
  - apply Rabs_le. lra.
  - split.
    + intros Heq. rewrite Heq in Hround_le. lra.
    + intros Hrem. apply Z.le_antisymm; [done|].
      apply Z.lt_succ_r. apply lt_IZR. rewrite succ_IZR. lra.
Qed.

Lemma formatDuration_rounding_witness :
  Utils.formatted (Utils.formatDuration (119 / 2)) = "0h 60m".
Proof.
  assert (0 <= 119 / 2)%R as Hminutes by lra.
  destruct (formatDuration_rounding (119 / 2) Hminutes)
    as (Hh & [Hhours _] & _ & _ & Hsixty & _ & ->).
  assert (Utils.hours (Utils.formatDuration (119 / 2)) = 0%Z) as Hzero.
  { apply Z.le_antisymm; [|done]. apply Z.lt_succ_r. apply lt_IZR.
    change (Z.succ 0) with 1%Z. lra. }
  rewrite Hzero in Hsixty |- *.
  rewrite (proj2 Hsixty) by lra. vm_compute. reflexivity.
Defined.

(** ** [ChartManager.createBoxPlot] *)








(** ** The durations in the statistics of a batch *)







Section BatchStatistics.
Context `{Platform}.



End BatchStatistics.

